(** * The auction backend of [backend/server.js]

    A shallow embedding of the Express route handlers of the auction
    platform (sign-up, sign-in, auction creation, listing, single view and
    bidding) together with the properties of the bidding state machine.

    Conventions of the embedding:
    - a JavaScript number is an integer [Z]; the handlers only compare and
      store numbers, they never compute with them;
    - an instant ([Date]) is its number of milliseconds since the epoch;
      [new Date()] is the argument [now] of a handler;
    - a MongoDB collection of auction items is a finite map from the
      document id to the document, the user collection is the list of its
      documents in insertion order;
    - [await doc.save()] is [save_auction] or [save_user]; each completed
      save is counted in the field [saves] of the database;
    - a handler is a function from the request and the database to the
      response and the database after the request; the store itself does
      not fail, so the [catch] of a handler is reached only through a
      rejected cast, validation or library call. *)

From stdpp Require Import base option list gmap strings sorting.
From Stdlib Require Import ZArith Lia Ascii.

Local Open Scope string_scope.
Local Open Scope Z_scope.

(** ** Values of a JSON request body *)

(** The scalar values of a body field; [JUndefined] is the value of a
    field the body does not have.  A field that is an object or an array
    is outside this type. *)
Inductive JsValue : Type :=
| JUndefined
| JNull
| JBool (b : bool)
| JNum (n : Z)
| JStr (s : string).

(** [!!v]: the truthiness the guards [if (!field)] test. *)
Definition truthy (v : JsValue) : bool :=
  match v with
  | JUndefined | JNull => false
  | JBool b => b
  | JNum n => negb (Z.eqb n 0)
  | JStr s => negb (String.eqb s "")
  end.

(** [v == null], true of [null] and [undefined] only. *)
Definition loose_null (v : JsValue) : bool :=
  match v with
  | JUndefined | JNull => true
  | _ => false
  end.

(** [typeof v === 'number'] *)
Definition is_number (v : JsValue) : bool :=
  match v with
  | JNum _ => true
  | _ => false
  end.

(** ** Documents and the database *)

(** [userSchema], with the [_id] of the document. *)
Record User : Type := mkUser {
  user_id : positive;
  username : string;
  password : string
}.

(** [auctionItemSchema]; the [_id] of an item is its key in the collection. *)
Record AuctionItem : Type := mkAuctionItem {
  itemName : string;
  description : string;
  currentBid : Z;
  highestBidder : string;
  closingTime : Z;
  isClosed : bool;
  startingBid : Z;
  createdAt : Z
}.

Record Db : Type := mkDb {
  auctions : gmap positive AuctionItem;
  users : list User;
  saves : nat
}.

(** [item.isClosed = true] *)
Definition set_isClosed (item : AuctionItem) : AuctionItem :=
  {| itemName := itemName item;
     description := description item;
     currentBid := currentBid item;
     highestBidder := highestBidder item;
     closingTime := closingTime item;
     isClosed := true;
     startingBid := startingBid item;
     createdAt := createdAt item |}.

(** [item.currentBid = bid; item.highestBidder = req.user.username] *)
Definition set_bid (bid : Z) (bidder : string) (item : AuctionItem) : AuctionItem :=
  {| itemName := itemName item;
     description := description item;
     currentBid := bid;
     highestBidder := bidder;
     closingTime := closingTime item;
     isClosed := isClosed item;
     startingBid := startingBid item;
     createdAt := createdAt item |}.

(** [AuctionItem.findById(id)], for an [id] that reads as an ObjectId. *)
Definition findById (id : positive) (db : Db) : option AuctionItem :=
  auctions db !! id.

(** [await item.save()] for the item of key [id]. *)
Definition save_auction (id : positive) (item : AuctionItem) (db : Db) : Db :=
  {| auctions := <[id := item]> (auctions db);
     users := users db;
     saves := S (saves db) |}.

(** [await newUser.save()] *)
Definition save_user (u : User) (db : Db) : Db :=
  {| auctions := auctions db;
     users := users db ++ [u];
     saves := S (saves db) |}.

(** The [_id] a new document receives: one no document of the collection has. *)
Definition new_auction_id (db : Db) : positive := fresh (dom (auctions db)).
Definition new_user_id (db : Db) : positive := fresh (user_id <$> users db).

(** ** The libraries the handlers call

    Mongoose's schema casts and the bcrypt and jsonwebtoken primitives are
    not code of the repository: the handlers are parametrised by them.
    A cast answers [None] when Mongoose raises a [CastError] (which the
    following [save] reports, and the handler's [catch] turns into a 500);
    [bcrypt_hash] and [bcrypt_compare] answer [None] when the promise is
    rejected. *)
Class Library : Type := {
  castString : JsValue -> option string;
  castNumber : JsValue -> option Z;
  castDate : JsValue -> option Z;
  bcrypt_hash : JsValue -> string -> option string;
  bcrypt_compare : JsValue -> string -> option bool;
  jwt_sign : positive -> string -> Z -> string
}.

(** ** Responses *)

Inductive Payload : Type :=
| PMessage (message : string)
| PClosed (message : string) (winner : string)
| PTooLow (message : string) (current : Z)
| PBid (message : string) (id : positive) (item : AuctionItem) (yourBid : Z)
| PItem (id : positive) (item : AuctionItem)
| PItems (items : list (positive * AuctionItem))
| PCreated (message : string) (id : positive) (item : AuctionItem)
| PSignin (message : string) (token : string) (id : positive) (name : string).

Record Response : Type := Res {
  status : nat;
  payload : Payload
}.

(** The outcomes of the engine, as the responses that carry them. *)
Definition NotFound (message : string) : Response := Res 404 (PMessage message).
Definition InvalidInput : Response := Res 400 (PMessage "All fields are required").
Definition MissingCredentials : Response :=
  Res 400 (PMessage "Username and password required").
Definition Conflict : Response := Res 400 (PMessage "Username already exists").
Definition InvalidCredentials : Response := Res 400 (PMessage "Invalid credentials").
Definition ServerError : Response := Res 500 (PMessage "Internal Server Error").
Definition AuctionClosed (message winner : string) : Response :=
  Res 400 (PClosed message winner).
Definition BidTooLow (current : Z) : Response :=
  Res 400 (PTooLow "Bid must be higher than current bid" current).
Definition BidAccepted (id : positive) (item : AuctionItem) (bid : Z) : Response :=
  Res 200 (PBid "Bid successful" id item bid).

(** ** Request bodies *)

Record Credentials : Type := mkCredentials {
  req_username : JsValue;
  req_password : JsValue
}.

Record AuctionBody : Type := mkAuctionBody {
  req_itemName : JsValue;
  req_description : JsValue;
  req_startingBid : JsValue;
  req_closingTime : JsValue
}.

(** ** The lifecycle engine: [GET /auctions/:id] and [POST /bid/:id] *)

(** The two guards of the code under which the handlers treat an item as
    closed: [item.isClosed], or [new Date() > new Date(item.closingTime)],
    a strict comparison. *)
Definition expired (item : AuctionItem) (now : Z) : bool :=
  closingTime item <? now.

Definition effectively_closed (item : AuctionItem) (now : Z) : bool :=
  isClosed item || expired item now.

(** The [evaluate(record, now)] of the specification, in its own words,
    to compare the guards of the code with: the effective state is Closed
    when the record is stored closed or [now >= closingTime], and the
    flag [dirty] is set when the record is stored open although
    [now >= closingTime]. *)
Inductive EffectiveState : Type :=
| StateOpen
| StateClosed.

Definition spec_evaluate (item : AuctionItem) (now : Z) : EffectiveState * bool :=
  if isClosed item then (StateClosed, false)
  else if closingTime item <=? now then (StateClosed, true)
  else (StateOpen, false).

(** [app.get('/auctions/:id', ...)] *)
Definition view_auction (id : positive) (now : Z) (db : Db) : Response * Db :=
  match findById id db with
  | None => (NotFound "Auction not found", db)
  | Some auctionItem =>
      if negb (isClosed auctionItem) && (closingTime auctionItem <? now)
      then
        let auctionItem' := set_isClosed auctionItem in
        (Res 200 (PItem id auctionItem'), save_auction id auctionItem' db)
      else (Res 200 (PItem id auctionItem), db)
  end.

(** [app.post('/bid/:id', authenticate, ...)], past [authenticate], for a
    body whose [bid] is a number and an item whose [currentBid] is one:
    [bidder] is [req.user.username], [bid] the number of the body.  The
    route on any value of [req.body.bid] is [Raw.place_bid] below. *)
Definition place_bid (id : positive) (bidder : string) (bid : Z) (now : Z)
    (db : Db) : Response * Db :=
  match findById id db with
  | None => (NotFound "Auction item not found", db)
  | Some item =>
      if isClosed item
      then (AuctionClosed "Auction is closed" (highestBidder item), db)
      else if closingTime item <? now
      then
        let item' := set_isClosed item in
        (AuctionClosed "Auction closed" (highestBidder item'),
         save_auction id item' db)
      else if bid <=? currentBid item
      then (BidTooLow (currentBid item), db)
      else
        let item' := set_bid bid bidder item in
        (BidAccepted id item' bid, save_auction id item' db)
  end.

(** ** Accounts: [POST /signup] and [POST /signin] *)

Section Handlers.
Context `{Library}.

(** [User.findOne({ username })] for a scalar [username]: [None] when the
    filter cannot be cast; a filter on [null] or [undefined] selects the
    documents without a username, and every user document has one.  (A
    username that is an object is a query operator for the store; it is
    not a value of [JsValue].) *)
Definition User_findOne (name : JsValue) (db : Db) : option (option User) :=
  match name with
  | JUndefined | JNull => Some None
  | _ =>
      match castString name with
      | Some s => Some (List.find (fun u => String.eqb (username u) s) (users db))
      | None => None
      end
  end.

(** [new User({ username, password: hashedPassword })], then [save()]:
    the schema requires both paths and keeps [username] unique. *)
Definition create_user (name : JsValue) (hashedPassword : string) (db : Db)
    : option Db :=
  match castString name with
  | None => None
  | Some s =>
      if String.eqb s "" || String.eqb hashedPassword "" then None
      else if existsb (fun u => String.eqb (username u) s) (users db) then None
      else Some (save_user (mkUser (new_user_id db) s hashedPassword) db)
  end.

(** [app.post('/signup', ...)]; [salt] is the result of [bcrypt.genSalt(10)]. *)
Definition signup (body : Credentials) (salt : string) (db : Db) : Response * Db :=
  if negb (truthy (req_username body)) || negb (truthy (req_password body))
  then (MissingCredentials, db)
  else
    match User_findOne (req_username body) db with
    | None => (ServerError, db)
    | Some (Some existingUser) => (Conflict, db)
    | Some None =>
        match bcrypt_hash (req_password body) salt with
        | None => (ServerError, db)
        | Some hashedPassword =>
            match create_user (req_username body) hashedPassword db with
            | None => (ServerError, db)
            | Some db' => (Res 201 (PMessage "User registered successfully"), db')
            end
        end
    end.

(** [app.post('/signin', ...)] *)
Definition signin (body : Credentials) (now : Z) (db : Db) : Response * Db :=
  match User_findOne (req_username body) db with
  | None => (ServerError, db)
  | Some None => (InvalidCredentials, db)
  | Some (Some user) =>
      match bcrypt_compare (req_password body) (password user) with
      | None => (ServerError, db)
      | Some false => (InvalidCredentials, db)
      | Some true =>
          let token := jwt_sign (user_id user) (username user) now in
          (Res 200 (PSignin "Signin successful" token (user_id user) (username user)),
           db)
      end
  end.

(** ** Auction creation and listing: [POST /auction], [GET /auctions] *)

(** [!itemName || !description || !startingBid || !closingTime] *)
Definition missing_fields (body : AuctionBody) : bool :=
  negb (truthy (req_itemName body))
  || negb (truthy (req_description body))
  || negb (truthy (req_startingBid body))
  || negb (truthy (req_closingTime body)).

(** [new AuctionItem({ itemName, description, currentBid: startingBid,
    startingBid: startingBid, highestBidder: '', closingTime })]: every path
    is cast to the type of the schema, [isClosed] and [createdAt] take their
    defaults. *)
Definition new_AuctionItem (body : AuctionBody) (now : Z) : option AuctionItem :=
  name ← castString (req_itemName body);
  text ← castString (req_description body);
  current ← castNumber (req_startingBid body);
  starting ← castNumber (req_startingBid body);
  closing ← castDate (req_closingTime body);
  Some {| itemName := name;
          description := text;
          currentBid := current;
          highestBidder := "";
          closingTime := closing;
          isClosed := false;
          startingBid := starting;
          createdAt := now |}.

(** [app.post('/auction', authenticate, ...)], past [authenticate]. *)
Definition create_auction (body : AuctionBody) (now : Z) (db : Db) : Response * Db :=
  if missing_fields body then (InvalidInput, db)
  else
    match new_AuctionItem body now with
    | None => (ServerError, db)
    | Some newItem =>
        let id := new_auction_id db in
        (Res 201 (PCreated "Auction item created" id newItem),
         save_auction id newItem db)
    end.

(** The filter of [GET /auctions?status=...]. *)
Definition matches_status (query : option string) (now : Z) (item : AuctionItem)
    : bool :=
  match query with
  | None => true
  | Some s =>
      if String.eqb s "active"
      then negb (isClosed item) && (now <? closingTime item)
      else if String.eqb s "closed"
      then isClosed item || (closingTime item <? now)
      else true
  end.

(** [.sort({ createdAt: -1 })] *)
Definition newest_first (a b : positive * AuctionItem) : Prop :=
  createdAt (snd b) <= createdAt (snd a).

#[local] Instance newest_first_dec a b : Decision (newest_first a b) :=
  Z_le_dec _ _.

(** [app.get('/auctions', ...)] *)
Definition list_auctions (query : option string) (now : Z) (db : Db)
    : Response * Db :=
  let found :=
    List.filter (fun d => matches_status query now (snd d))
      (map_to_list (auctions db)) in
  (Res 200 (PItems (merge_sort newest_first found)), db).

(** ** Requests and runs of the server *)

Inductive Request : Type :=
| Signup (body : Credentials) (salt : string)
| Signin (body : Credentials)
| CreateAuction (body : AuctionBody)
| ListAuctions (query : option string)
| ViewAuction (id : positive)
| PlaceBid (id : positive) (bidder : string) (bid : Z).

(** One request, served at instant [now]. *)
Definition handle (req : Request) (now : Z) (db : Db) : Response * Db :=
  match req with
  | Signup body salt => signup body salt db
  | Signin body => signin body now db
  | CreateAuction body => create_auction body now db
  | ListAuctions query => list_auctions query now db
  | ViewAuction id => view_auction id now db
  | PlaceBid id bidder bid => place_bid id bidder bid now db
  end.

(** The database after a sequence of requests, each with its instant. *)
Fixpoint run (reqs : list (Request * Z)) (db : Db) : Db :=
  match reqs with
  | [] => db
  | (req, now) :: rest => run rest (snd (handle req now db))
  end.

End Handlers.

(** ** The other copies of the server

    The files kept next to [backend/server.js] hold earlier copies of the
    routes.  Two of their handlers differ from it in ways the properties
    below refer to. *)
Module Variant.

(** [!itemName || !description || startingBid == null || !closingTime] *)
Definition missing_fields (body : AuctionBody) : bool :=
  negb (truthy (req_itemName body))
  || negb (truthy (req_description body))
  || loose_null (req_startingBid body)
  || negb (truthy (req_closingTime body)).

(** [app.get('/auctions/:id', ...)] without the expiry check. *)
Definition view_auction (id : positive) (db : Db) : Response * Db :=
  match findById id db with
  | None => (NotFound "Auction not found", db)
  | Some auction => (Res 200 (PItem id auction), db)
  end.

End Variant.

(** ** An instance of the libraries for examples

    It accepts a value that already has the type of the schema path and
    refuses every other one (Mongoose itself converts more values), and it
    stands in for bcrypt and jsonwebtoken with plain text.  It only serves
    to run the handlers on concrete requests. *)
Definition example_library : Library :=
  {| castString v := match v with JStr s => Some s | _ => None end;
     castNumber v := match v with JNum n => Some n | _ => None end;
     castDate v := match v with JNum n => Some n | _ => None end;
     bcrypt_hash v salt :=
       match v with JStr s => Some (s ++ "$" ++ salt)%string | _ => None end;
     bcrypt_compare v digest :=
       match v with
       | JStr s => Some (String.prefix (s ++ "$")%string digest)
       | _ => None
       end;
     jwt_sign id name now := ("token:" ++ name)%string |}.

(** A vase on sale from 100, closing at instant 1000, with no bid yet. *)
Definition vase : AuctionItem :=
  {| itemName := "Vase";
     description := "Blue vase";
     currentBid := 100;
     highestBidder := "";
     closingTime := 1000;
     isClosed := false;
     startingBid := 100;
     createdAt := 0 |}.

Definition alice : User := mkUser 1 "alice" "secret$salt".

Definition empty_db : Db := mkDb ∅ [] 0.
Definition vase_db : Db := mkDb {[ 1%positive := vase ]} [alice] 0.

Definition vase_body : AuctionBody :=
  mkAuctionBody (JStr "Vase") (JStr "Blue vase") (JNum 100) (JNum 1000).

(** ** The session gate: [authenticate] and the protected routes *)

(** The payload of a verified token, [{ userId, username }]. *)
Record TokenClaims : Type := mkClaims {
  claim_userId : positive;
  claim_username : string
}.

(** [jwt.verify(token, SECRET_KEY, ...)] at instant [now]: [None] is the
    [err] of the callback (bad signature, malformed or expired token). *)
Class Verifier : Type := {
  jwt_verify : string -> Z -> option TokenClaims
}.

(** [s.split(' ')]: the pieces of [s] between single spaces. *)
Fixpoint split_space (s : string) : list string :=
  match s with
  | EmptyString => [EmptyString]
  | String c rest =>
      if Ascii.eqb c " "%char then EmptyString :: split_space rest
      else
        match split_space rest with
        | piece :: pieces => String c piece :: pieces
        | [] => [String c EmptyString]
        end
  end.

(** Whether [s] contains a space. *)
Fixpoint has_space (s : string) : bool :=
  match s with
  | EmptyString => false
  | String c rest => Ascii.eqb c " "%char || has_space rest
  end.

(** [req.headers.authorization?.split(' ')[1]] *)
Definition bearer_token (authorization : option string) : option string :=
  match authorization with
  | None => None
  | Some header => split_space header !! 1%nat
  end.

Section Gate.
Context `{Library} `{Verifier}.

(** The middleware [authenticate] of [backend/server.js]: the response it
    sends itself, or the claims it puts in [req.user] before [next()]. *)
Definition authenticate (authorization : option string) (now : Z)
    : Response + TokenClaims :=
  match bearer_token authorization with
  | None => inl (Res 401 (PMessage "Unauthorized"))
  | Some token =>
      if String.eqb token "" then inl (Res 401 (PMessage "Unauthorized"))
      else
        match jwt_verify token now with
        | None => inl (Res 403 (PMessage "Invalid Token"))
        | Some user => inr user
        end
  end.

(** [app.post('/auction', authenticate, ...)] *)
Definition auction_route (authorization : option string) (body : AuctionBody)
    (now : Z) (db : Db) : Response * Db :=
  match authenticate authorization now with
  | inl res => (res, db)
  | inr user => create_auction body now db
  end.

(** [app.post('/bid/:id', authenticate, ...)] *)
Definition bid_route (authorization : option string) (id : positive) (bid : Z)
    (now : Z) (db : Db) : Response * Db :=
  match authenticate authorization now with
  | inl res => (res, db)
  | inr user => place_bid id (claim_username user) bid now db
  end.

End Gate.

(** ** The bid route on the raw request body

    [req.body.bid] is whatever the body holds.  The route compares it with
    [item.currentBid] by JavaScript's [<=], which converts both sides to
    numbers and is false when one of them is [NaN]; it then assigns it to
    the path [currentBid], which Mongoose casts to the type Number of the
    schema and validates on [save()]. *)

(** [Number(text)], the number JavaScript reads in a text; [None] is [NaN]. *)
Class Coercion : Type := {
  Number_of_text : string -> option Z
}.

(** The value of a path of type Number in a stored document: a number,
    [null], or [undefined] once the path is unset. *)
Inductive StoredNumber : Type :=
| Unset
| StoredNull
| Stored (n : Z).

(** [ToNumber(v)] for a value of the body; [None] is [NaN]. *)
Definition to_number `{Coercion} (v : JsValue) : option Z :=
  match v with
  | JUndefined => None
  | JNull => Some 0
  | JBool b => Some (if b then 1 else 0)
  | JNum n => Some n
  | JStr s => Number_of_text s
  end.

(** [ToNumber] of a stored path. *)
Definition stored_to_number (c : StoredNumber) : option Z :=
  match c with
  | Unset => None
  | StoredNull => Some 0
  | Stored n => Some n
  end.

(** [a <= b] on the two converted sides. *)
Definition js_le (a b : option Z) : bool :=
  match a, b with
  | Some x, Some y => x <=? y
  | _, _ => false
  end.

(** The cast of Mongoose for a path of type Number, on assignment:
    [undefined] and [null] are kept, the empty text becomes [null], a text
    or a boolean goes through [Number], a number is kept; [None] is the
    CastError that the following [save()] reports. *)
Definition cast_bid `{Coercion} (bid : JsValue) : option StoredNumber :=
  match bid with
  | JUndefined => Some Unset
  | JNull => Some StoredNull
  | JBool b => Some (Stored (if b then 1 else 0))
  | JNum n => Some (Stored n)
  | JStr s =>
      if String.eqb s "" then Some StoredNull
      else
        match Number_of_text s with
        | Some n => Some (Stored n)
        | None => None
        end
  end.

Module Raw.

(** A document of [auctionItemSchema] whose [currentBid] may have been
    unset or set to [null]. *)
Record Item : Type := mkItem {
  itemName : string;
  description : string;
  currentBid : StoredNumber;
  highestBidder : string;
  closingTime : Z;
  isClosed : bool;
  startingBid : Z;
  createdAt : Z
}.

Inductive Payload : Type :=
| PMessage (message : string)
| PClosed (message : string) (winner : string)
| PTooLow (message : string) (current : StoredNumber)
| PBid (message : string) (id : positive) (item : Item) (yourBid : JsValue).

Record Response : Type := Res {
  status : nat;
  payload : Payload
}.

(** [app.post('/bid/:id', authenticate, ...)] of [backend/server.js], past
    [authenticate], on the collection of items and any [req.body.bid]. *)
Definition place_bid `{Coercion} (id : positive) (bidder : string) (bid : JsValue)
    (now : Z) (items : gmap positive Item) : Response * gmap positive Item :=
  match items !! id with
  | None => (Res 404 (PMessage "Auction item not found"), items)
  | Some item =>
      if isClosed item
      then (Res 400 (PClosed "Auction is closed" (highestBidder item)), items)
      else if closingTime item <? now
      then
        let item' :=
          mkItem (itemName item) (description item) (currentBid item)
            (highestBidder item) (closingTime item) true (startingBid item)
            (createdAt item) in
        (Res 400 (PClosed "Auction closed" (highestBidder item')),
         <[id := item']> items)
      else if js_le (to_number bid) (stored_to_number (currentBid item))
      then
        (Res 400 (PTooLow "Bid must be higher than current bid" (currentBid item)),
         items)
      else
        match cast_bid bid with
        | None => (Res 500 (PMessage "Internal Server Error"), items)
        | Some value =>
            let item' :=
              mkItem (itemName item) (description item) value bidder
                (closingTime item) (isClosed item) (startingBid item)
                (createdAt item) in
            (Res 200 (PBid "Bid successful" id item' bid), <[id := item']> items)
        end
  end.

End Raw.

(** An item whose [currentBid] is a number, as a document. *)
Definition raw_item (item : AuctionItem) : Raw.Item :=
  Raw.mkItem (itemName item) (description item) (Stored (currentBid item))
    (highestBidder item) (closingTime item) (isClosed item) (startingBid item)
    (createdAt item).

(** ** The first of the older copies of the server

    Its schema has neither [startingBid] nor [createdAt]; its middleware
    also takes a header that is the bare token; its bid route answers with
    other messages and with a 200 when it closes an expired item. *)
Module Legacy.

Record Item : Type := mkItem {
  itemName : string;
  description : string;
  currentBid : Z;
  highestBidder : string;
  closingTime : Z;
  isClosed : bool
}.

Inductive Payload : Type :=
| PMessage (message : string)
| PClosed (message : string) (winner : string)
| PBid (message : string) (id : positive) (item : Item).

Record Response : Type := Res {
  status : nat;
  payload : Payload
}.

(** [authHeader.startsWith('Bearer ') ? authHeader.split(' ')[1] : authHeader] *)
Definition token_of (authHeader : string) : option string :=
  if String.prefix "Bearer " authHeader then split_space authHeader !! 1%nat
  else Some authHeader.

(** The middleware [authenticate] of the copy; a token that is
    [undefined] fails the verification like any other bad token. *)
Definition authenticate `{Verifier} (authorization : option string) (now : Z)
    : Response + TokenClaims :=
  match authorization with
  | None => inl (Res 401 (PMessage "Unauthorized"))
  | Some authHeader =>
      if String.eqb authHeader "" then inl (Res 401 (PMessage "Unauthorized"))
      else
        match token_of authHeader with
        | None => inl (Res 403 (PMessage "Invalid token"))
        | Some token =>
            match jwt_verify token now with
            | None => inl (Res 403 (PMessage "Invalid token"))
            | Some decoded => inr decoded
            end
        end
  end.

(** [app.post('/bid/:id', authenticate, ...)] of the copy, past
    [authenticate], on its collection of items and any [req.body.bid].
    Its schema requires [currentBid]: a bid that the cast leaves
    [undefined] or [null], or that it cannot cast, fails the validation of
    [save()], which the [catch] answers with a 500. *)
Definition place_bid `{Coercion} (id : positive) (bidder : string) (bid : JsValue)
    (now : Z) (items : gmap positive Item) : Response * gmap positive Item :=
  match items !! id with
  | None => (Res 404 (PMessage "Item not found"), items)
  | Some item =>
      if isClosed item then (Res 400 (PMessage "Auction closed"), items)
      else if closingTime item <? now
      then
        let item' :=
          mkItem (itemName item) (description item) (currentBid item)
            (highestBidder item) (closingTime item) true in
        (Res 200 (PClosed "Auction closed" (highestBidder item')),
         <[id := item']> items)
      else if js_le (to_number bid) (Some (currentBid item))
      then (Res 400 (PMessage "Bid too low"), items)
      else
        match cast_bid bid with
        | Some (Stored n) =>
            let item' :=
              mkItem (itemName item) (description item) n bidder
                (closingTime item) (isClosed item) in
            (Res 200 (PBid "Bid successful" id item'), <[id := item']> items)
        | _ => (Res 500 (PMessage "Server error"), items)
        end
  end.

End Legacy.

(** The item of [backend/server.js] as the older schema stores it. *)
Definition legacy_item (item : AuctionItem) : Legacy.Item :=
  Legacy.mkItem (itemName item) (description item) (currentBid item)
    (highestBidder item) (closingTime item) (isClosed item).

(** A verifier for examples: it reads back the tokens of
    [example_library], whatever the instant. *)
Definition example_verifier : Verifier :=
  {| jwt_verify token now :=
       if String.prefix "token:" token
       then Some (mkClaims 1 (String.substring 6 (String.length token - 6) token))
       else None |}.

(** A reading of texts for examples: it reads no text as a number
    (JavaScript reads decimal text, among others).  It only serves to run
    requests that carry no text. *)
Definition example_coercion : Coercion :=
  {| Number_of_text text := None |}.

(** * Properties *)

(** ** The store *)

Lemma findById_save_eq (id : positive) (item : AuctionItem) (db : Db) :
  findById id (save_auction id item db) = Some item.
Proof. unfold findById, save_auction; simpl. apply lookup_insert_eq. Qed.

Lemma findById_save_ne (id id' : positive) (item : AuctionItem) (db : Db) :
  id ≠ id' -> findById id' (save_auction id item db) = findById id' db.
Proof. intros Hne. unfold findById, save_auction; simpl. by apply lookup_insert_ne. Qed.

Lemma saves_save_auction (id : positive) (item : AuctionItem) (db : Db) :
  saves (save_auction id item db) = S (saves db).
Proof. reflexivity. Qed.

Lemma save_auction_changes (id : positive) (item : AuctionItem) (db : Db) :
  save_auction id item db ≠ db.
Proof.
  intros Heq. apply (f_equal saves) in Heq. simpl in Heq. lia.
Qed.

(** A stored id is never handed out again. *)
Lemma new_auction_id_fresh (id : positive) (item : AuctionItem) (db : Db) :
  findById id db = Some item -> new_auction_id db ≠ id.
Proof.
  unfold findById, new_auction_id. intros Hfind Heq.
  assert (Hin : id ∈ dom (auctions db)) by (apply elem_of_dom; eauto).
  rewrite <- Heq in Hin. by apply is_fresh in Hin.
Qed.

(** ** The two guards and the effective state *)

Lemma effectively_closed_false (item : AuctionItem) (now : Z) :
  effectively_closed item now = false <->
  isClosed item = false /\ now <= closingTime item.
Proof.
  unfold effectively_closed, expired.
  rewrite orb_false_iff, Z.ltb_ge. tauto.
Qed.

Lemma effectively_closed_true (item : AuctionItem) (now : Z) :
  effectively_closed item now = true <->
  isClosed item = true \/ closingTime item < now.
Proof.
  unfold effectively_closed, expired.
  rewrite orb_true_iff, Z.ltb_lt. tauto.
Qed.

(** The four ways out of [place_bid] on a stored item. *)
Lemma place_bid_marked (id : positive) (item : AuctionItem) (bidder : string)
    (bid now : Z) (db : Db) :
  findById id db = Some item -> isClosed item = true ->
  place_bid id bidder bid now db
  = (AuctionClosed "Auction is closed" (highestBidder item), db).
Proof. intros Hfind Hc. unfold place_bid. by rewrite Hfind, Hc. Qed.

Lemma place_bid_expired (id : positive) (item : AuctionItem) (bidder : string)
    (bid now : Z) (db : Db) :
  findById id db = Some item -> isClosed item = false -> closingTime item < now ->
  place_bid id bidder bid now db
  = (AuctionClosed "Auction closed" (highestBidder item),
     save_auction id (set_isClosed item) db).
Proof.
  intros Hfind Hc Hlt. unfold place_bid. rewrite Hfind, Hc.
  apply Z.ltb_lt in Hlt. by rewrite Hlt.
Qed.

Lemma place_bid_low (id : positive) (item : AuctionItem) (bidder : string)
    (bid now : Z) (db : Db) :
  findById id db = Some item -> isClosed item = false -> now <= closingTime item ->
  bid <= currentBid item ->
  place_bid id bidder bid now db = (BidTooLow (currentBid item), db).
Proof.
  intros Hfind Hc Hle Hbid. unfold place_bid. rewrite Hfind, Hc.
  apply Z.ltb_ge in Hle. rewrite Hle.
  apply Z.leb_le in Hbid. by rewrite Hbid.
Qed.

Lemma place_bid_high (id : positive) (item : AuctionItem) (bidder : string)
    (bid now : Z) (db : Db) :
  findById id db = Some item -> isClosed item = false -> now <= closingTime item ->
  currentBid item < bid ->
  place_bid id bidder bid now db
  = (BidAccepted id (set_bid bid bidder item) bid,
     save_auction id (set_bid bid bidder item) db).
Proof.
  intros Hfind Hc Hle Hbid. unfold place_bid. rewrite Hfind, Hc.
  apply Z.ltb_ge in Hle. rewrite Hle.
  apply Z.leb_gt in Hbid. by rewrite Hbid.
Qed.

Lemma place_bid_missing (id : positive) (bidder : string) (bid now : Z) (db : Db) :
  findById id db = None ->
  place_bid id bidder bid now db = (NotFound "Auction item not found", db).
Proof. intros Hfind. unfold place_bid. by rewrite Hfind. Qed.

(** ** Bidding *)

(** The guards of the code and the state of the specification agree
    except at the closing instant of an item stored open. *)
Lemma spec_evaluate_closed (item : AuctionItem) (now : Z) :
  fst (spec_evaluate item now) = StateClosed
  <-> effectively_closed item now = true
      \/ (isClosed item = false /\ closingTime item = now).
Proof.
  unfold spec_evaluate, effectively_closed, expired.
  destruct (isClosed item); simpl; [split; auto |].
  destruct (Z.leb_spec (closingTime item) now) as [Hle | Hgt]; simpl.
  - split; [intros _ | done].
    destruct (Z.eq_dec (closingTime item) now) as [Heq | Hne]; [by right |].
    left. apply Z.ltb_lt. lia.
  - split; [discriminate |].
    intros [Hlt | [_ Heq]]; [apply Z.ltb_lt in Hlt |]; lia.
Qed.

(** C1, as the code has it.  On a stored item [place_bid] checks in this
    order: an item that is marked closed, or whose closing time is strictly
    before [now], answers AuctionClosed with the current highest bidder as
    winner, whatever the amount, and keeps its bid; otherwise (the closing
    instant itself included) an amount not above the current bid answers
    BidTooLow with the current bid and writes nothing; otherwise the item
    takes the amount and the bidder, is saved, and BidAccepted carries the
    updated item.  The closed state of the first check is the Closed of
    the specification's [evaluate] except at [now = closingTime] on an item
    stored open, where the specification says Closed and the code goes on
    to the amount. *)
Theorem place_bid_order (id : positive) (item : AuctionItem) (bidder : string)
    (amount now : Z) (db : Db) :
  findById id db = Some item ->
  (isClosed item = true \/ closingTime item < now ->
     place_bid id bidder amount now db
     = if isClosed item
       then (AuctionClosed "Auction is closed" (highestBidder item), db)
       else (AuctionClosed "Auction closed" (highestBidder item),
             save_auction id (set_isClosed item) db))
  /\ (isClosed item = false -> now <= closingTime item ->
      amount <= currentBid item ->
        place_bid id bidder amount now db = (BidTooLow (currentBid item), db))
  /\ (isClosed item = false -> now <= closingTime item ->
      currentBid item < amount ->
        place_bid id bidder amount now db
        = (BidAccepted id (set_bid amount bidder item) amount,
           save_auction id (set_bid amount bidder item) db)
        /\ currentBid (set_bid amount bidder item) = amount
        /\ highestBidder (set_bid amount bidder item) = bidder
        /\ findById id (save_auction id (set_bid amount bidder item) db)
           = Some (set_bid amount bidder item))
  /\ (fst (spec_evaluate item now) = StateClosed
      <-> (isClosed item = true \/ closingTime item < now)
          \/ (isClosed item = false /\ closingTime item = now)).
Proof.
  intros Hfind. split; [| split; [| split]].
  - intros Hclosed. destruct (isClosed item) eqn:Hc.
    + by apply place_bid_marked.
    + destruct Hclosed as [Hmark | Hlt]; [discriminate Hmark |].
      by apply place_bid_expired.
  - intros Hc Hle Hbid. by apply place_bid_low.
  - intros Hc Hle Hbid.
    split; [by apply place_bid_high |].
    split; [reflexivity |]. split; [reflexivity |].
    apply findById_save_eq.
  - rewrite spec_evaluate_closed, effectively_closed_true. tauto.
Qed.

Lemma place_bid_order_witness :
  findById 1 vase_db = Some vase
  /\ isClosed vase = false
  /\ place_bid 1 "bob" 100 500 vase_db = (BidTooLow 100, vase_db).
Proof.
  split; [reflexivity |]. split; [reflexivity |].
  apply (place_bid_order 1 vase "bob" 100 500 vase_db);
    [reflexivity | reflexivity | unfold vase; simpl; lia ..].
Defined.

(** C1 as stated fails at the closing instant: for the vase stored open
    and [now] equal to its closing time the specification's [evaluate]
    gives Closed (with the transition to write), yet [place_bid] goes on
    to the amount and accepts the higher bid. *)
Lemma bid_at_closing_instant_is_accepted :
  findById 1 vase_db = Some vase
  /\ spec_evaluate vase 1000 = (StateClosed, true)
  /\ place_bid 1 "bob" 150 1000 vase_db
     = (BidAccepted 1 (set_bid 150 "bob" vase) 150,
        save_auction 1 (set_bid 150 "bob" vase) vase_db)
  /\ ~ (exists message winner : string,
          fst (place_bid 1 "bob" 150 1000 vase_db) = AuctionClosed message winner).
Proof.
  assert (Hbid : place_bid 1 "bob" 150 1000 vase_db
                 = (BidAccepted 1 (set_bid 150 "bob" vase) 150,
                    save_auction 1 (set_bid 150 "bob" vase) vase_db)).
  { apply place_bid_high; [reflexivity | reflexivity | ..];
      unfold vase; simpl; lia. }
  split; [reflexivity |]. split; [reflexivity |]. split; [exact Hbid |].
  rewrite Hbid. simpl. intros (message & winner & Heq). discriminate Heq.
Qed.

(** ** Lazy expiry *)

Lemma view_auction_expired (id : positive) (item : AuctionItem) (now : Z) (db : Db) :
  findById id db = Some item -> isClosed item = false -> closingTime item < now ->
  view_auction id now db
  = (Res 200 (PItem id (set_isClosed item)), save_auction id (set_isClosed item) db).
Proof.
  intros Hfind Hc Hlt. unfold view_auction. rewrite Hfind, Hc.
  apply Z.ltb_lt in Hlt. by rewrite Hlt.
Qed.

Lemma view_auction_unchanged (id : positive) (item : AuctionItem) (now : Z) (db : Db) :
  findById id db = Some item -> isClosed item = true \/ now <= closingTime item ->
  view_auction id now db = (Res 200 (PItem id item), db).
Proof.
  intros Hfind Hcase. unfold view_auction. rewrite Hfind.
  destruct Hcase as [Hc | Hle].
  - by rewrite Hc.
  - apply Z.ltb_ge in Hle. rewrite Hle. by rewrite andb_false_r.
Qed.

Lemma view_auction_missing (id : positive) (now : Z) (db : Db) :
  findById id db = None ->
  view_auction id now db = (NotFound "Auction not found", db).
Proof. intros Hfind. unfold view_auction. by rewrite Hfind. Qed.

(** C2, as the code has it.  An item stored open is seen closed, and saved
    with [isClosed = true], by a view or a bid served strictly after its
    closing time: both handlers test [new Date() > closingTime].  Up to and
    including the closing instant it is still treated as open: a view
    answers with it unchanged and writes nothing, and a bid is judged on
    its amount, never answered AuctionClosed. *)
Theorem open_auction_closes_after_closing_time (id : positive)
    (item : AuctionItem) (now : Z) (db : Db) :
  findById id db = Some item -> isClosed item = false ->
  (closingTime item < now ->
     effectively_closed item now = true
     /\ view_auction id now db
        = (Res 200 (PItem id (set_isClosed item)),
           save_auction id (set_isClosed item) db)
     /\ (forall (bidder : string) (amount : Z),
           place_bid id bidder amount now db
           = (AuctionClosed "Auction closed" (highestBidder item),
              save_auction id (set_isClosed item) db))
     /\ findById id (save_auction id (set_isClosed item) db)
        = Some (set_isClosed item)
     /\ isClosed (set_isClosed item) = true)
  /\ (now <= closingTime item ->
      effectively_closed item now = false
      /\ view_auction id now db = (Res 200 (PItem id item), db)
      /\ (forall (bidder : string) (amount : Z),
            place_bid id bidder amount now db
            = if amount <=? currentBid item
              then (BidTooLow (currentBid item), db)
              else (BidAccepted id (set_bid amount bidder item) amount,
                    save_auction id (set_bid amount bidder item) db))
      /\ (forall (bidder : string) (amount : Z) (item' : AuctionItem),
            findById id (snd (place_bid id bidder amount now db)) = Some item' ->
            isClosed item' = false)).
Proof.
  intros Hfind Hc. split.
  - intros Hlt.
    split; [apply effectively_closed_true; by right |].
    split; [by apply view_auction_expired |].
    split; [intros bidder amount; by apply place_bid_expired |].
    split; [apply findById_save_eq | reflexivity].
  - intros Hle.
    assert (Hbid : forall (bidder : string) (amount : Z),
              place_bid id bidder amount now db
              = if amount <=? currentBid item
                then (BidTooLow (currentBid item), db)
                else (BidAccepted id (set_bid amount bidder item) amount,
                      save_auction id (set_bid amount bidder item) db)).
    { intros bidder amount.
      destruct (Z.leb_spec amount (currentBid item)) as [Hlow | Hhigh].
      - by apply place_bid_low.
      - by apply place_bid_high. }
    split; [by apply effectively_closed_false |].
    split; [apply view_auction_unchanged; auto |].
    split; [exact Hbid |].
    intros bidder amount item'. rewrite Hbid.
    destruct (amount <=? currentBid item); simpl.
    + rewrite Hfind. intros Heq. injection Heq as <-. exact Hc.
    + rewrite findById_save_eq. intros Heq. injection Heq as <-. exact Hc.
Qed.

Lemma open_auction_closes_after_closing_time_witness :
  findById 1 vase_db = Some vase
  /\ isClosed vase = false
  /\ closingTime vase < 1001
  /\ fst (view_auction 1 1001 vase_db) = Res 200 (PItem 1 (set_isClosed vase)).
Proof.
  split; [reflexivity |]. split; [reflexivity |]. split; [reflexivity |].
  pose proof (open_auction_closes_after_closing_time 1 vase 1001 vase_db
                eq_refl eq_refl) as [Hafter _].
  destruct (Hafter eq_refl) as (_ & Hview & _).
  by rewrite Hview.
Defined.

(** C2 as stated fails at the closing instant itself: with [now] equal to
    the closing time the item is neither seen closed nor saved closed, and
    a higher bid is still accepted. *)
Lemma closing_instant_is_still_open :
  findById 1 vase_db = Some vase
  /\ isClosed vase = false
  /\ closingTime vase <= 1000
  /\ effectively_closed vase 1000 = false
  /\ view_auction 1 1000 vase_db = (Res 200 (PItem 1 vase), vase_db)
  /\ place_bid 1 "bob" 150 1000 vase_db
     = (BidAccepted 1 (set_bid 150 "bob" vase) 150,
        save_auction 1 (set_bid 150 "bob" vase) vase_db)
  /\ ~ (exists item',
          findById 1 (snd (view_auction 1 1000 vase_db)) = Some item'
          /\ isClosed item' = true)
  /\ ~ (exists message winner,
          fst (place_bid 1 "bob" 150 1000 vase_db) = AuctionClosed message winner).
Proof.
  assert (Hfind : findById 1 vase_db = Some vase) by reflexivity.
  assert (Hview : view_auction 1 1000 vase_db = (Res 200 (PItem 1 vase), vase_db)).
  { apply view_auction_unchanged; [exact Hfind | right; unfold vase; simpl; lia]. }
  assert (Hbid : place_bid 1 "bob" 150 1000 vase_db
                 = (BidAccepted 1 (set_bid 150 "bob" vase) 150,
                    save_auction 1 (set_bid 150 "bob" vase) vase_db)).
  { apply place_bid_high; [exact Hfind | reflexivity | ..]; unfold vase; simpl; lia. }
  split; [exact Hfind |]. split; [reflexivity |].
  split; [unfold vase; simpl; lia |]. split; [reflexivity |].
  split; [exact Hview |]. split; [exact Hbid |]. split.
  - rewrite Hview. simpl. rewrite Hfind. intros (item' & Heq & Hc).
    injection Heq as <-. discriminate Hc.
  - rewrite Hbid. simpl. intros (message & winner & Heq). discriminate Heq.
Qed.


(** The copy of the view without the expiry check only reads. *)
Lemma variant_view_reads_only (id : positive) (db : Db) :
  snd (Variant.view_auction id db) = db.
Proof. unfold Variant.view_auction. by destruct (findById id db). Qed.




(** The vase at 100: a bid of 100 is too low, a bid of 150 is accepted,
    and a later bid of 120 is too low against the 150. *)
Example three_bids_on_the_vase :
  fst (place_bid 1 "bob" 100 10 vase_db) = BidTooLow 100
  /\ fst (place_bid 1 "bob" 150 10 vase_db)
     = BidAccepted 1 (set_bid 150 "bob" vase) 150
  /\ fst (place_bid 1 "carol" 120 20 (snd (place_bid 1 "bob" 150 10 vase_db)))
     = BidTooLow 150.
Proof. split; [reflexivity |]. split; reflexivity. Qed.

(** ** What a request can do to the auction collection *)

(** A view writes nothing, or marks the viewed open item closed. *)
Lemma view_auction_effect (id : positive) (now : Z) (db : Db) :
  snd (view_auction id now db) = db
  \/ exists item,
       findById id db = Some item /\ isClosed item = false
       /\ closingTime item < now
       /\ view_auction id now db
          = (Res 200 (PItem id (set_isClosed item)),
             save_auction id (set_isClosed item) db).
Proof.
  destruct (findById id db) as [item |] eqn:Hfind.
  - destruct (isClosed item) eqn:Hc.
    + left. rewrite (view_auction_unchanged id item now db); auto.
    + destruct (Z_lt_le_dec (closingTime item) now) as [Hlt | Hle].
      * right. exists item. auto using view_auction_expired.
      * left. rewrite (view_auction_unchanged id item now db); auto.
  - left. by rewrite view_auction_missing.
Qed.

(** A bid writes nothing, or marks the open item closed, or records a bid
    strictly above the current one. *)
Lemma place_bid_effect (id : positive) (bidder : string) (bid now : Z) (db : Db) :
  (snd (place_bid id bidder bid now db) = db
   /\ forall item' amount, fst (place_bid id bidder bid now db) ≠ BidAccepted id item' amount)
  \/ exists item,
       findById id db = Some item /\ isClosed item = false
       /\ ((closingTime item < now
            /\ place_bid id bidder bid now db
               = (AuctionClosed "Auction closed" (highestBidder item),
                  save_auction id (set_isClosed item) db))
           \/ (now <= closingTime item /\ currentBid item < bid
               /\ place_bid id bidder bid now db
                  = (BidAccepted id (set_bid bid bidder item) bid,
                     save_auction id (set_bid bid bidder item) db))).
Proof.
  destruct (findById id db) as [item |] eqn:Hfind.
  - destruct (isClosed item) eqn:Hc.
    + left. rewrite (place_bid_marked id item bidder bid now db Hfind Hc).
      split; [reflexivity | discriminate].
    + destruct (Z_lt_le_dec (closingTime item) now) as [Hlt | Hle].
      * right. exists item. split; [done |]. split; [done |]. left.
        auto using place_bid_expired.
      * destruct (Z_le_gt_dec bid (currentBid item)) as [Hlow | Hhigh].
        -- left. rewrite (place_bid_low id item bidder bid now db Hfind Hc Hle Hlow).
           split; [reflexivity | discriminate].
        -- right. exists item. split; [done |]. split; [done |]. right.
           split; [done |]. split; [lia |]. apply place_bid_high; auto with zarith.
  - left. rewrite (place_bid_missing id bidder bid now db Hfind).
    split; [reflexivity | discriminate].
Qed.

Section Runs.
Context `{Library}.

Lemma signup_auctions (body : Credentials) (salt : string) (db : Db) :
  auctions (snd (signup body salt db)) = auctions db.
Proof.
  unfold signup.
  destruct (negb (truthy (req_username body)) || negb (truthy (req_password body)));
    [reflexivity |].
  destruct (User_findOne (req_username body) db) as [[u |] |]; try reflexivity.
  destruct (bcrypt_hash (req_password body) salt) as [hashed |]; [| reflexivity].
  unfold create_user.
  destruct (castString (req_username body)) as [s |]; [| reflexivity].
  destruct (String.eqb s "" || String.eqb hashed ""); [reflexivity |].
  destruct (existsb _ (users db)); reflexivity.
Qed.

Lemma signin_db (body : Credentials) (now : Z) (db : Db) :
  snd (signin body now db) = db.
Proof.
  unfold signin.
  destruct (User_findOne (req_username body) db) as [[u |] |]; try reflexivity.
  destruct (bcrypt_compare (req_password body) (password u)) as [[|] |]; reflexivity.
Qed.

(** A creation writes nothing, or stores the new item under a new id. *)
Lemma create_auction_effect (body : AuctionBody) (now : Z) (db : Db) :
  snd (create_auction body now db) = db
  \/ exists newItem,
       new_AuctionItem body now = Some newItem
       /\ create_auction body now db
          = (Res 201 (PCreated "Auction item created" (new_auction_id db) newItem),
             save_auction (new_auction_id db) newItem db).
Proof.
  unfold create_auction. destruct (missing_fields body); [by left |].
  destruct (new_AuctionItem body now) as [newItem |]; [| by left].
  right. by exists newItem.
Qed.

(** One request leaves a stored item in place; it may only mark it closed
    or raise its bid, and it leaves a closed item as it is. *)
Lemma handle_item (req : Request) (now : Z) (db : Db) (id : positive)
    (item : AuctionItem) :
  findById id db = Some item ->
  exists item',
    findById id (snd (handle req now db)) = Some item'
    /\ startingBid item' = startingBid item
    /\ currentBid item <= currentBid item'
    /\ (isClosed item = true -> item' = item).
Proof.
  intros Hfind.
  assert (Hsame : forall db', findById id db' = findById id db ->
            exists item', findById id db' = Some item'
              /\ startingBid item' = startingBid item
              /\ currentBid item <= currentBid item'
              /\ (isClosed item = true -> item' = item)).
  { intros db' ->. exists item. rewrite Hfind. repeat split; auto with zarith. }
  destruct req as [body salt | body | body | query | id' | id' bidder bid]; simpl.
  - apply Hsame. unfold findById. by rewrite signup_auctions.
  - apply Hsame. by rewrite signin_db.
  - destruct (create_auction_effect body now db) as [-> | (newItem & _ & ->)];
      [by apply Hsame |].
    apply Hsame. simpl. apply findById_save_ne.
    by apply (new_auction_id_fresh id item).
  - by apply Hsame.
  - destruct (view_auction_effect id' now db) as [-> | (item0 & Hf0 & Hc0 & _ & ->)];
      [by apply Hsame |].
    simpl. destruct (decide (id' = id)) as [-> | Hne].
    + assert (item0 = item) as -> by congruence.
      exists (set_isClosed item). rewrite findById_save_eq.
      split; [done |]. split; [done |]. split; [simpl; lia | congruence].
    + apply Hsame. by apply findById_save_ne.
  - destruct (place_bid_effect id' bidder bid now db)
      as [[-> _] | (item0 & Hf0 & Hc0 & [(_ & ->) | (_ & Hhigh & ->)])];
      [by apply Hsame | |]; simpl.
    + destruct (decide (id' = id)) as [-> | Hne].
      * assert (item0 = item) as -> by congruence.
        exists (set_isClosed item). rewrite findById_save_eq.
        split; [done |]. split; [done |]. split; [simpl; lia | congruence].
      * apply Hsame. by apply findById_save_ne.
    + destruct (decide (id' = id)) as [-> | Hne].
      * assert (item0 = item) as -> by congruence.
        exists (set_bid bid bidder item). rewrite findById_save_eq.
        split; [done |]. split; [done |]. split; [simpl; lia | congruence].
      * apply Hsame. by apply findById_save_ne.
Qed.

(** The same along a sequence of requests. *)
Lemma run_item (reqs : list (Request * Z)) (db : Db) (id : positive)
    (item : AuctionItem) :
  findById id db = Some item ->
  exists item',
    findById id (run reqs db) = Some item'
    /\ startingBid item' = startingBid item
    /\ currentBid item <= currentBid item'
    /\ (isClosed item = true -> item' = item).
Proof.
  revert db item. induction reqs as [| [req now] rest IH]; intros db item Hfind.
  - exists item. simpl. repeat split; auto with zarith.
  - simpl.
    destruct (handle_item req now db id item Hfind)
      as (item1 & Hfind1 & Hstart1 & Hbid1 & Hclosed1).
    destruct (IH _ item1 Hfind1) as (item' & Hfind' & Hstart' & Hbid' & Hclosed').
    exists item'. split; [done |]. split; [congruence |]. split; [lia |].
    intros Hc. specialize (Hclosed1 Hc). subst item1. auto.
Qed.

End Runs.

(** ** Invariants of an auction item *)

Section Invariants.
Context `{Library}.

(** What [new AuctionItem] builds: both bids are the cast of the same
    value, the item is open and has no bidder. *)
Lemma new_AuctionItem_fields (body : AuctionBody) (now : Z) (item : AuctionItem) :
  new_AuctionItem body now = Some item ->
  castString (req_itemName body) = Some (itemName item)
  /\ castString (req_description body) = Some (description item)
  /\ castNumber (req_startingBid body) = Some (startingBid item)
  /\ castDate (req_closingTime body) = Some (closingTime item)
  /\ currentBid item = startingBid item
  /\ highestBidder item = ""
  /\ isClosed item = false
  /\ createdAt item = now.
Proof.
  unfold new_AuctionItem. intros Hnew.
  destruct (castString (req_itemName body)) as [name |]; [| discriminate].
  destruct (castString (req_description body)) as [text |]; [| discriminate].
  destruct (castNumber (req_startingBid body)) as [n |]; [| discriminate].
  destruct (castDate (req_closingTime body)) as [closing |]; [| discriminate].
  simpl in Hnew. injection Hnew as <-. simpl. repeat split.
Qed.

(** A 201 of [create_auction] stores the item it answers with, under the
    id it answers with. *)
Lemma create_auction_created (body : AuctionBody) (now : Z) (db : Db)
    (message : string) (id : positive) (item : AuctionItem) :
  fst (create_auction body now db) = Res 201 (PCreated message id item) ->
  new_AuctionItem body now = Some item
  /\ missing_fields body = false
  /\ id = new_auction_id db
  /\ snd (create_auction body now db) = save_auction id item db.
Proof.
  unfold create_auction. destruct (missing_fields body); [discriminate |].
  destruct (new_AuctionItem body now) as [newItem |]; [| discriminate].
  simpl. intros Heq. injection Heq as _ <- <-. auto.
Qed.

(** Only a bid on the item itself is answered with its BidAccepted, and
    only while the item is open. *)
Lemma handle_accepted (req : Request) (now : Z) (db : Db) (id : positive)
    (item' : AuctionItem) (bid : Z) :
  fst (handle req now db) = BidAccepted id item' bid ->
  exists (item : AuctionItem) (bidder : string),
    req = PlaceBid id bidder bid
    /\ findById id db = Some item
    /\ isClosed item = false
    /\ now <= closingTime item
    /\ currentBid item < bid.
Proof.
  destruct req as [body salt | body | body | query | id' | id' bidder amount]; simpl.
  - unfold signup.
    destruct (negb (truthy (req_username body)) || negb (truthy (req_password body)));
      [discriminate |].
    destruct (User_findOne (req_username body) db) as [[u |] |]; try discriminate.
    destruct (bcrypt_hash (req_password body) salt) as [hashed |]; [| discriminate].
    destruct (create_user (req_username body) hashed db); discriminate.
  - unfold signin.
    destruct (User_findOne (req_username body) db) as [[u |] |]; try discriminate.
    destruct (bcrypt_compare (req_password body) (password u)) as [[|] |];
      discriminate.
  - unfold create_auction. destruct (missing_fields body); [discriminate |].
    destruct (new_AuctionItem body now); discriminate.
  - discriminate.
  - unfold view_auction. destruct (findById id' db) as [item |]; [| discriminate].
    destruct (negb (isClosed item) && (closingTime item <? now)); discriminate.
  - intros Hacc.
    destruct (place_bid_effect id' bidder amount now db)
      as [[_ Hno] | (item & Hfind & Hc & [(_ & Heq) | (Hle & Hhigh & Heq)])].
    + unfold place_bid in Hacc, Hno.
      destruct (findById id' db) as [item |]; [| discriminate].
      destruct (isClosed item); [discriminate |].
      destruct (closingTime item <? now); [discriminate |].
      destruct (amount <=? currentBid item); [discriminate |].
      exfalso. by apply (Hno (set_bid amount bidder item) amount).
    + rewrite Heq in Hacc. discriminate.
    + rewrite Heq in Hacc. simpl in Hacc. injection Hacc as <- _ <-.
      exists item, bidder. auto.
Qed.

(** For bids that carry a number: the item that [create_auction] has
    stored keeps its starting bid and a current bid that is at least the
    starting bid, whatever requests the server handles afterwards.  (A bid
    request without a number breaks this, as the last section shows.) *)
Theorem current_bid_never_below_starting_bid (body : AuctionBody) (now : Z)
    (db : Db) (id : positive) (item : AuctionItem) (reqs : list (Request * Z)) :
  fst (create_auction body now db)
  = Res 201 (PCreated "Auction item created" id item) ->
  currentBid item = startingBid item
  /\ exists item',
       findById id (run reqs (snd (create_auction body now db))) = Some item'
       /\ startingBid item' = startingBid item
       /\ startingBid item' <= currentBid item'.
Proof.
  intros Hcreated.
  destruct (create_auction_created _ _ _ _ _ _ Hcreated) as (Hnew & _ & _ & ->).
  destruct (new_AuctionItem_fields _ _ _ Hnew) as (_ & _ & _ & _ & Hbid & _).
  split; [exact Hbid |].
  destruct (run_item reqs (save_auction id item db) id item (findById_save_eq _ _ _))
    as (item' & Hfind' & Hstart' & Hbid' & _).
  exists item'. split; [done |]. split; [done |]. lia.
Qed.

(** C6. An item marked closed stays exactly as it is under every request
    and every sequence of requests, so [isClosed] never returns to false,
    and no request is answered with an accepted bid on it. *)
Theorem closed_is_terminal (id : positive) (item : AuctionItem) (db : Db)
    (reqs : list (Request * Z)) (req : Request) (now : Z) :
  findById id db = Some item -> isClosed item = true ->
  findById id (run reqs db) = Some item
  /\ findById id (snd (handle req now (run reqs db))) = Some item
  /\ (forall (item' : AuctionItem) (bid : Z),
        fst (handle req now (run reqs db)) ≠ BidAccepted id item' bid)
  /\ (forall (bidder : string) (amount : Z),
        place_bid id bidder amount now (run reqs db)
        = (AuctionClosed "Auction is closed" (highestBidder item), run reqs db)).
Proof.
  intros Hfind Hc.
  assert (Hrun : findById id (run reqs db) = Some item).
  { destruct (run_item reqs db id item Hfind) as (item' & Hfind' & _ & _ & Hsame).
    by rewrite Hfind', (Hsame Hc). }
  split; [exact Hrun |]. split; [| split].
  - destruct (handle_item req now (run reqs db) id item Hrun)
      as (item' & Hfind' & _ & _ & Hsame).
    by rewrite Hfind', (Hsame Hc).
  - intros item' bid Hacc.
    destruct (handle_accepted _ _ _ _ _ _ Hacc) as (item0 & bidder & _ & Hf0 & Hc0 & _).
    congruence.
  - intros bidder amount. by apply place_bid_marked.
Qed.

End Invariants.

Lemma current_bid_never_below_starting_bid_witness :
  exists item',
    findById 1
      (@run example_library [(PlaceBid 1 "bob" 150, 10); (ViewAuction 1, 2000)]
         (snd (@create_auction example_library vase_body 0 empty_db)))
    = Some item'
    /\ startingBid item' = 100
    /\ startingBid item' <= currentBid item'.
Proof.
  apply (@current_bid_never_below_starting_bid example_library vase_body 0 empty_db
           1 vase [(PlaceBid 1 "bob" 150, 10); (ViewAuction 1, 2000)]).
  reflexivity.
Defined.

Lemma closed_is_terminal_witness :
  findById 1 (mkDb {[ 1%positive := set_isClosed vase ]} [] 0)
  = Some (set_isClosed vase)
  /\ findById 1
       (@run example_library [(PlaceBid 1 "bob" 150, 10); (ViewAuction 1, 20)]
          (mkDb {[ 1%positive := set_isClosed vase ]} [] 0))
     = Some (set_isClosed vase).
Proof.
  split; [reflexivity |].
  apply (@closed_is_terminal example_library 1 (set_isClosed vase)
           (mkDb {[ 1%positive := set_isClosed vase ]} [] 0)
           [(PlaceBid 1 "bob" 150, 10); (ViewAuction 1, 20)] (ViewAuction 1) 30);
    reflexivity.
Defined.

(** ** Writes of a bid *)

(** C7. A call of [place_bid] saves at most once.  It saves only when it
    marks an expired open item closed (AuctionClosed) or accepts the bid
    (BidAccepted); on BidTooLow, and on AuctionClosed for an item already
    marked closed, the database, hence every field of the stored item, is
    left as it was. *)
Theorem place_bid_writes (id : positive) (bidder : string) (amount now : Z)
    (db : Db) :
  (saves (snd (place_bid id bidder amount now db)) <= S (saves db))%nat
  /\ (snd (place_bid id bidder amount now db) = db
      \/ exists item,
           findById id db = Some item /\ isClosed item = false
           /\ saves (snd (place_bid id bidder amount now db)) = S (saves db)
           /\ (place_bid id bidder amount now db
               = (AuctionClosed "Auction closed" (highestBidder item),
                  save_auction id (set_isClosed item) db)
               \/ place_bid id bidder amount now db
                  = (BidAccepted id (set_bid amount bidder item) amount,
                     save_auction id (set_bid amount bidder item) db)))
  /\ (forall current : Z,
        fst (place_bid id bidder amount now db) = BidTooLow current ->
        snd (place_bid id bidder amount now db) = db)
  /\ (forall item : AuctionItem,
        findById id db = Some item -> isClosed item = true ->
        place_bid id bidder amount now db
        = (AuctionClosed "Auction is closed" (highestBidder item), db)).
Proof.
  destruct (place_bid_effect id bidder amount now db)
    as [[Hsame _] | (item & Hfind & Hc & Hcase)].
  - rewrite Hsame. split; [lia |]. split; [by left |]. split; [done |].
    intros item Hfind Hc. by apply place_bid_marked.
  - assert (Hsaves : saves (snd (place_bid id bidder amount now db)) = S (saves db)).
    { destruct Hcase as [(_ & ->) | (_ & _ & ->)]; reflexivity. }
    split; [lia |]. split; [| split].
    + right. exists item. split; [done |]. split; [done |]. split; [done |].
      destruct Hcase as [(_ & Heq) | (_ & _ & Heq)]; auto.
    + intros current Hlow.
      destruct Hcase as [(_ & Heq) | (_ & _ & Heq)]; rewrite Heq in Hlow;
        discriminate Hlow.
    + intros item0 Hfind0 Hc0. congruence.
Qed.

Lemma place_bid_writes_witness :
  fst (place_bid 1 "bob" 100 500 vase_db) = BidTooLow 100
  /\ snd (place_bid 1 "bob" 100 500 vase_db) = vase_db.
Proof.
  split; [reflexivity |].
  apply (place_bid_writes 1 "bob" 100 500 vase_db) with (current := 100).
  reflexivity.
Defined.

(** ** Creating an auction *)

Section Creation.
Context `{Library}.

Lemma create_auction_missing (body : AuctionBody) (now : Z) (db : Db) :
  missing_fields body = true ->
  create_auction body now db = (InvalidInput, db).
Proof. intros Hmiss. unfold create_auction. by rewrite Hmiss. Qed.

Lemma create_auction_complete (body : AuctionBody) (now : Z) (db : Db) :
  missing_fields body = false ->
  create_auction body now db
  = match new_AuctionItem body now with
    | None => (ServerError, db)
    | Some newItem =>
        (Res 201 (PCreated "Auction item created" (new_auction_id db) newItem),
         save_auction (new_auction_id db) newItem db)
    end.
Proof. intros Hmiss. unfold create_auction. by rewrite Hmiss. Qed.

(** The guard rejects a field that is absent or null. *)
Lemma missing_fields_null (body : AuctionBody) :
  loose_null (req_itemName body) = true
  \/ loose_null (req_description body) = true
  \/ loose_null (req_startingBid body) = true
  \/ loose_null (req_closingTime body) = true ->
  missing_fields body = true.
Proof.
  unfold missing_fields.
  destruct body as [name text bid closing]; simpl.
  intros [Hn | [Hn | [Hn | Hn]]];
    [destruct name | destruct text | destruct bid | destruct closing];
    try discriminate Hn; simpl; rewrite ?orb_true_r; reflexivity.
Qed.

(** C8, as the code has it, for a starting bid other than the number 0
    (that case is set apart, see [zero_starting_bid_is_rejected] below).
    The request is answered InvalidInput exactly when the guard finds one
    of the four fields falsy (absent, null, empty, false), and then nothing
    is stored.  The handler has no numeric check: a starting bid that is
    not a number but is truthy passes the guard, and from there the answer
    is a server error when the schema cannot cast a field and the created
    item otherwise.  When the casts accept the four fields, the new item is
    stored under a new id with [currentBid = startingBid], [isClosed =
    false] and no highest bidder. *)
Theorem create_auction_outcomes (body : AuctionBody) (now : Z) (db : Db) :
  req_startingBid body ≠ JNum 0 ->
  (fst (create_auction body now db) = InvalidInput <-> missing_fields body = true)
  /\ (missing_fields body = true -> snd (create_auction body now db) = db)
  /\ (loose_null (req_itemName body) = true
      \/ loose_null (req_description body) = true
      \/ loose_null (req_startingBid body) = true
      \/ loose_null (req_closingTime body) = true ->
      create_auction body now db = (InvalidInput, db))
  /\ (is_number (req_startingBid body) = false ->
      missing_fields body = false ->
      fst (create_auction body now db) ≠ InvalidInput)
  /\ (missing_fields body = false -> new_AuctionItem body now = None ->
      create_auction body now db = (ServerError, db))
  /\ (forall (name text : string) (n closing : Z),
        missing_fields body = false ->
        castString (req_itemName body) = Some name ->
        castString (req_description body) = Some text ->
        castNumber (req_startingBid body) = Some n ->
        castDate (req_closingTime body) = Some closing ->
        create_auction body now db
        = (Res 201 (PCreated "Auction item created" (new_auction_id db)
                      (mkAuctionItem name text n "" closing false n now)),
           save_auction (new_auction_id db)
             (mkAuctionItem name text n "" closing false n now) db)
        /\ findById (new_auction_id db) db = None
        /\ findById (new_auction_id db) (snd (create_auction body now db))
           = Some (mkAuctionItem name text n "" closing false n now)).
Proof.
  intros _.
  assert (Hnot : missing_fields body = false ->
                 fst (create_auction body now db) ≠ InvalidInput).
  { intros Hmiss. rewrite (create_auction_complete body now db Hmiss).
    destruct (new_AuctionItem body now); discriminate. }
  split; [| split; [| split; [| split; [| split]]]].
  - split.
    + intros Hinv. destruct (missing_fields body) eqn:Hmiss; [reflexivity |].
      by destruct (Hnot eq_refl).
    + intros Hmiss. by rewrite create_auction_missing.
  - intros Hmiss. by rewrite create_auction_missing.
  - intros Hnull. apply create_auction_missing. by apply missing_fields_null.
  - intros _. exact Hnot.
  - intros Hmiss Hnew. by rewrite create_auction_complete, Hnew.
  - intros name text n closing Hmiss Hname Htext Hbid Hclosing.
    assert (Hnew : new_AuctionItem body now
                   = Some (mkAuctionItem name text n "" closing false n now)).
    { unfold new_AuctionItem. by rewrite Hname, Htext, Hbid, Hclosing. }
    assert (Hcreate : create_auction body now db
                      = (Res 201 (PCreated "Auction item created" (new_auction_id db)
                                    (mkAuctionItem name text n "" closing false n now)),
                         save_auction (new_auction_id db)
                           (mkAuctionItem name text n "" closing false n now) db)).
    { by rewrite create_auction_complete, Hnew. }
    split; [exact Hcreate |]. split.
    + destruct (findById (new_auction_id db) db) as [old |] eqn:Hold; [| done].
      by destruct (new_auction_id_fresh _ _ _ Hold).
    + rewrite Hcreate. apply findById_save_eq.
Qed.

End Creation.

Lemma create_auction_outcomes_witness :
  req_startingBid vase_body ≠ JNum 0
  /\ missing_fields vase_body = false
  /\ @create_auction example_library vase_body 0 empty_db
     = (Res 201 (PCreated "Auction item created" (new_auction_id empty_db) vase),
        save_auction (new_auction_id empty_db) vase empty_db).
Proof.
  assert (Hbid : req_startingBid vase_body ≠ JNum 0) by discriminate.
  split; [exact Hbid |]. split; [reflexivity |].
  apply (@create_auction_outcomes example_library vase_body 0 empty_db Hbid);
    reflexivity.
Defined.

(** C8 as stated fails on a starting bid that is not numeric: the text
    [abc] is truthy, the guard lets it through, and the answer is the 500 of
    the failed save, not InvalidInput; no choice of the libraries makes it
    InvalidInput. *)
Lemma text_starting_bid_is_not_invalid_input :
  is_number (JStr "abc") = false
  /\ missing_fields
       (mkAuctionBody (JStr "Vase") (JStr "Blue vase") (JStr "abc") (JNum 1000))
     = false
  /\ @create_auction example_library
       (mkAuctionBody (JStr "Vase") (JStr "Blue vase") (JStr "abc") (JNum 1000))
       0 empty_db
     = (ServerError, empty_db)
  /\ (forall L : Library,
        fst (@create_auction L
               (mkAuctionBody (JStr "Vase") (JStr "Blue vase") (JStr "abc") (JNum 1000))
               0 empty_db)
        ≠ InvalidInput).
Proof.
  split; [reflexivity |]. split; [reflexivity |]. split; [reflexivity |].
  intros L. unfold create_auction. simpl.
  destruct (new_AuctionItem _ _); discriminate.
Qed.

(** The starting bid 0 that [create_auction_outcomes] sets apart: the guard
    of [backend/server.js] takes it for a missing field, the guard of the
    other copies ([startingBid == null]) does not. *)
Lemma zero_starting_bid_is_rejected :
  @create_auction example_library
    (mkAuctionBody (JStr "Vase") (JStr "Blue vase") (JNum 0) (JNum 1000)) 0 empty_db
  = (InvalidInput, empty_db)
  /\ missing_fields
       (mkAuctionBody (JStr "Vase") (JStr "Blue vase") (JNum 0) (JNum 1000)) = true
  /\ Variant.missing_fields
       (mkAuctionBody (JStr "Vase") (JStr "Blue vase") (JNum 0) (JNum 1000)) = false.
Proof. repeat split. Qed.

(** ** Accounts *)

Section Accounts.
Context `{Library}.

(** C9, as the code has it.  A sign-up whose username names a stored user
    never changes the database; when the request also carries a username
    and a password that pass the guard for missing fields, which comes
    first, the answer is the Conflict [Username already exists]. *)
Theorem signup_existing_username (body : Credentials) (salt : string) (db : Db)
    (existingUser : User) :
  User_findOne (req_username body) db = Some (Some existingUser) ->
  snd (signup body salt db) = db
  /\ (truthy (req_username body) = true -> truthy (req_password body) = true ->
      signup body salt db = (Conflict, db))
  /\ (truthy (req_password body) = false ->
      signup body salt db = (MissingCredentials, db)).
Proof.
  intros Hfound. unfold signup. rewrite Hfound.
  destruct (truthy (req_username body)), (truthy (req_password body)); simpl;
    repeat split; intros; congruence.
Qed.

(** C10. The sign-in answers with the same response, 400 and the message
    [Invalid credentials], and writes nothing, when no user has the
    username and when a user has it but the password does not verify. *)
Theorem signin_failures_look_alike (unknown known : Credentials)
    (now now' : Z) (db db' : Db) (user : User) :
  User_findOne (req_username unknown) db = Some None ->
  User_findOne (req_username known) db' = Some (Some user) ->
  bcrypt_compare (req_password known) (password user) = Some false ->
  signin unknown now db = (InvalidCredentials, db)
  /\ signin known now' db' = (InvalidCredentials, db')
  /\ fst (signin unknown now db) = fst (signin known now' db')
  /\ fst (signin known now' db') = Res 400 (PMessage "Invalid credentials").
Proof.
  intros Hunknown Hknown Hwrong.
  assert (H1 : signin unknown now db = (InvalidCredentials, db)).
  { unfold signin. by rewrite Hunknown. }
  assert (H2 : signin known now' db' = (InvalidCredentials, db')).
  { unfold signin. by rewrite Hknown, Hwrong. }
  rewrite H1, H2. repeat split.
Qed.

End Accounts.

Lemma signup_existing_username_witness :
  @User_findOne example_library (JStr "alice") vase_db = Some (Some alice)
  /\ @signup example_library (mkCredentials (JStr "alice") (JStr "hunter2")) "salt"
       vase_db
     = (Conflict, vase_db).
Proof.
  split; [reflexivity |].
  apply (@signup_existing_username example_library
           (mkCredentials (JStr "alice") (JStr "hunter2")) "salt" vase_db alice);
    reflexivity.
Defined.

(** C9 as stated fails for a request without password: the username names
    a stored user, yet the answer is the rejection for missing fields, not
    the Conflict. *)
Lemma signup_without_password_is_not_conflict :
  @User_findOne example_library (JStr "alice") vase_db = Some (Some alice)
  /\ @signup example_library (mkCredentials (JStr "alice") JUndefined) "salt" vase_db
     = (MissingCredentials, vase_db)
  /\ fst (@signup example_library (mkCredentials (JStr "alice") JUndefined) "salt"
            vase_db)
     ≠ Conflict
  /\ (forall L : Library,
        fst (@signup L (mkCredentials (JStr "alice") JUndefined) "salt" vase_db)
        ≠ Conflict).
Proof.
  split; [reflexivity |]. split; [reflexivity |].
  split; [discriminate |]. intros L. discriminate.
Qed.

Lemma signin_failures_look_alike_witness :
  @signin example_library (mkCredentials (JStr "mallory") (JStr "secret")) 5 vase_db
  = (InvalidCredentials, vase_db)
  /\ @signin example_library (mkCredentials (JStr "alice") (JStr "guess")) 7 vase_db
     = (InvalidCredentials, vase_db).
Proof.
  pose proof (@signin_failures_look_alike example_library
                (mkCredentials (JStr "mallory") (JStr "secret"))
                (mkCredentials (JStr "alice") (JStr "guess"))
                5 7 vase_db vase_db alice eq_refl eq_refl eq_refl)
    as (Hunknown & Hknown & _).
  split; assumption.
Defined.

(** * Further properties of the server *)

(** ** The authorization header *)

Lemma split_space_no_space (s : string) :
  has_space s = false -> split_space s = [s].
Proof.
  induction s as [| c rest IH]; simpl; [reflexivity |].
  intros [Hc Hrest]%orb_false_iff. rewrite Hc, (IH Hrest). reflexivity.
Qed.

Lemma split_space_word (word rest : string) :
  has_space word = false ->
  split_space (word ++ " " ++ rest)%string = word :: split_space rest.
Proof.
  induction word as [| c word IH]; simpl; [reflexivity |].
  intros [Hc Hword]%orb_false_iff. rewrite Hc, (IH Hword). reflexivity.
Qed.



Lemma bearer_token_words (scheme token rest : string) :
  has_space scheme = false -> has_space token = false ->
  bearer_token (Some (scheme ++ " " ++ token)%string) = Some token
  /\ bearer_token (Some (scheme ++ " " ++ token ++ " " ++ rest)%string) = Some token.
Proof.
  intros Hscheme Htoken. unfold bearer_token.
  rewrite !split_space_word by assumption.
  by rewrite split_space_no_space.
Qed.

Section GateProperties.
Context `{Library} `{Verifier}.

(** X1. Without an authorization header, or with a header that has no
    space in it (a bare token), [authenticate] answers 401 and does not
    look at the token. *)
Theorem authenticate_needs_a_second_word (now : Z) :
  authenticate None now = inl (Res 401 (PMessage "Unauthorized"))
  /\ (forall header : string,
        has_space header = false ->
        authenticate (Some header) now = inl (Res 401 (PMessage "Unauthorized"))).
Proof.
  split; [reflexivity |].
  intros header Hspace. unfold authenticate, bearer_token.
  by rewrite (split_space_no_space header Hspace).
Qed.

(** X2. The token [authenticate] verifies is the second word of the
    header: the first word is not compared with [Bearer], and what follows
    a second space is dropped.  A verified token passes its claims on, a
    rejected one is answered 403. *)
Theorem authenticate_verifies_second_word (scheme token rest : string) (now : Z) :
  has_space scheme = false -> has_space token = false -> token ≠ "" ->
  authenticate (Some (scheme ++ " " ++ token)%string) now
  = match jwt_verify token now with
    | Some user => inr user
    | None => inl (Res 403 (PMessage "Invalid Token"))
    end
  /\ authenticate (Some (scheme ++ " " ++ token ++ " " ++ rest)%string) now
     = authenticate (Some (scheme ++ " " ++ token)%string) now.
Proof.
  intros Hscheme Htoken Hne.
  destruct (bearer_token_words scheme token rest Hscheme Htoken) as [Hshort Hlong].
  unfold authenticate. rewrite Hshort, Hlong.
  apply String.eqb_neq in Hne. rewrite Hne.
  split; [| reflexivity]. by destruct (jwt_verify token now).
Qed.


(** X4. A protected route changes the database only for a request whose
    token was verified, and the highest bidder an accepted bid records is
    the username of the verified claims. *)
Theorem protected_routes_write_for_verified_tokens (authorization : option string)
    (id : positive) (bid now : Z) (body : AuctionBody) (db : Db) :
  (snd (bid_route authorization id bid now db) ≠ db
   \/ snd (auction_route authorization body now db) ≠ db ->
   exists (token : string) (user : TokenClaims),
     bearer_token authorization = Some token
     /\ jwt_verify token now = Some user)
  /\ (forall (item' : AuctionItem) (amount : Z),
        fst (bid_route authorization id bid now db) = BidAccepted id item' amount ->
        exists (token : string) (user : TokenClaims),
          bearer_token authorization = Some token
          /\ jwt_verify token now = Some user
          /\ highestBidder item' = claim_username user
          /\ findById id (snd (bid_route authorization id bid now db)) = Some item').
Proof.
  unfold bid_route, auction_route, authenticate.
  destruct (bearer_token authorization) as [token |].
  - destruct (String.eqb token "").
    + split; [intros [Hne | Hne]; by destruct Hne |].
      intros item' amount Hacc. simpl in Hacc. discriminate Hacc.
    + destruct (jwt_verify token now) as [user |] eqn:Hverify.
      * split; [intros _; by exists token, user |].
        intros item' amount Hacc. exists token, user.
        split; [done |]. split; [done |].
        destruct (place_bid_effect id (claim_username user) bid now db)
          as [[_ Hno] | (item & Hfind & Hc & [(_ & Heq) | (_ & _ & Heq)])].
        -- by destruct (Hno item' amount).
        -- rewrite Heq in Hacc. discriminate Hacc.
        -- rewrite Heq in Hacc |- *. simpl in *. injection Hacc as <- _.
           split; [reflexivity | apply findById_save_eq].
      * split; [intros [Hne | Hne]; by destruct Hne |].
      intros item' amount Hacc. simpl in Hacc. discriminate Hacc.
  - split; [intros [Hne | Hne]; by destruct Hne |].
      intros item' amount Hacc. simpl in Hacc. discriminate Hacc.
Qed.

End GateProperties.

Lemma authenticate_needs_a_second_word_witness :
  @authenticate example_verifier (Some "token:alice") 5
  = inl (Res 401 (PMessage "Unauthorized")).
Proof.
  apply (@authenticate_needs_a_second_word example_verifier 5). reflexivity.
Defined.

Lemma authenticate_verifies_second_word_witness :
  @authenticate example_verifier (Some "Basic token:alice") 5
  = inr (mkClaims 1 "alice").
Proof.
  pose proof (@authenticate_verifies_second_word example_verifier
                "Basic" "token:alice" "" 5 eq_refl eq_refl) as Hverify.
  destruct Hverify as [Hverify _]; [discriminate |].
  exact Hverify.
Defined.


Lemma protected_routes_write_for_verified_tokens_witness :
  exists (token : string) (user : TokenClaims),
    bearer_token (Some "Bearer token:alice") = Some token
    /\ @jwt_verify example_verifier token 5 = Some user.
Proof.
  apply (@protected_routes_write_for_verified_tokens example_library example_verifier
           (Some "Bearer token:alice") 1 150 5 vase_body vase_db).
  left. apply save_auction_changes.
Defined.

(** ** The user collection *)

Lemma find_existsb_false {A : Type} (f : A -> bool) (l : list A) :
  existsb f l = false <-> List.find f l = None.
Proof.
  induction l as [| x l IH]; simpl; [done |].
  destruct (f x); simpl; [split; discriminate | exact IH].
Qed.

Lemma find_none_forall {A : Type} (f : A -> bool) (l : list A) :
  List.find f l = None <-> forall x, In x l -> f x = false.
Proof.
  split; [apply List.find_none |].
  induction l as [| x l IH]; simpl; [done |].
  intros Hall. rewrite (Hall x) by auto. apply IH. auto.
Qed.

Lemma find_app_new {A : Type} (f : A -> bool) (l : list A) (x : A) :
  List.find f l = None -> f x = true -> List.find f (l ++ [x]) = Some x.
Proof.
  induction l as [| y l IH]; simpl; intros Hnone Hx; [by rewrite Hx |].
  destruct (f y); [discriminate | auto].
Qed.

Section AccountProperties.
Context `{Library}.

(** What a sign-up that answers 201 has done. *)
Lemma signup_registered (body : Credentials) (salt : string) (db : Db) :
  fst (signup body salt db) = Res 201 (PMessage "User registered successfully") ->
  exists (name hashed : string),
    truthy (req_username body) = true
    /\ truthy (req_password body) = true
    /\ castString (req_username body) = Some name
    /\ name ≠ ""
    /\ List.find (fun u => String.eqb (username u) name) (users db) = None
    /\ bcrypt_hash (req_password body) salt = Some hashed
    /\ hashed ≠ ""
    /\ snd (signup body salt db) = save_user (mkUser (new_user_id db) name hashed) db.
Proof.
  unfold signup.
  destruct (truthy (req_username body)) eqn:Hname; [| discriminate].
  destruct (truthy (req_password body)) eqn:Hpass; [| discriminate]. simpl.
  unfold User_findOne, create_user.
  destruct (req_username body) as [| | b | n | s] eqn:Hvalue; try discriminate;
    (destruct (castString _) as [name |] eqn:Hcast; [| discriminate];
     destruct (List.find _ (users db)) as [u |] eqn:Hfind; [discriminate |];
     destruct (bcrypt_hash (req_password body) salt) as [hashed |]; [| discriminate];
     destruct (String.eqb name "") eqn:Hempty; [discriminate |];
     destruct (String.eqb hashed "") eqn:Hhash; [discriminate |]; simpl;
     apply find_existsb_false in Hfind as Hexists; rewrite Hexists; simpl;
     intros _; exists name, hashed;
     apply String.eqb_neq in Hempty; apply String.eqb_neq in Hhash; auto 10).
Qed.

(** X5. A sign-up answers 201 exactly when both fields are truthy, the
    username casts to a non-empty name that no stored user has, and bcrypt
    returns a non-empty hash; it then appends one user, with a new id, that
    name and the hash as password, and does nothing else. *)
Theorem signup_registers_one_user (body : Credentials) (salt : string) (db : Db) :
  fst (signup body salt db) = Res 201 (PMessage "User registered successfully")
  <-> exists (name hashed : string),
        truthy (req_username body) = true
        /\ truthy (req_password body) = true
        /\ castString (req_username body) = Some name
        /\ name ≠ ""
        /\ (forall u : User, In u (users db) -> username u ≠ name)
        /\ bcrypt_hash (req_password body) salt = Some hashed
        /\ hashed ≠ ""
        /\ snd (signup body salt db)
           = {| auctions := auctions db;
                users := users db ++ [mkUser (new_user_id db) name hashed];
                saves := S (saves db) |}.
Proof.
  split.
  - intros Hok.
    destruct (signup_registered body salt db Hok)
      as (name & hashed & Hn & Hp & Hcast & Hne & Hfind & Hhash & Hhne & Hdb).
    exists name, hashed. repeat (split; [done |]). split; [| done].
    intros u Hin Heq.
    pose proof (proj1 (find_none_forall _ _) Hfind u Hin) as Hfalse.
    simpl in Hfalse. apply String.eqb_neq in Hfalse. done.
  - intros (name & hashed & Hn & Hp & Hcast & Hne & Hfree & Hhash & Hhne & _).
    assert (Hfind : List.find (fun u => String.eqb (username u) name) (users db)
                    = None).
    { apply find_none_forall. intros u Hin. apply String.eqb_neq. auto. }
    unfold signup, User_findOne, create_user. rewrite Hn, Hp, Hcast, Hhash, Hfind.
    apply String.eqb_neq in Hne. apply String.eqb_neq in Hhne. rewrite Hne, Hhne.
    apply find_existsb_false in Hfind. rewrite Hfind. simpl.
    destruct (req_username body); try discriminate Hn; reflexivity.
Qed.

(** What a request can do to the user collection. *)
Lemma handle_users (req : Request) (now : Z) (db : Db) :
  users (snd (handle req now db)) = users db
  \/ exists (name hashed : string),
       (forall u : User, In u (users db) -> username u ≠ name)
       /\ users (snd (handle req now db))
          = (users db ++ [mkUser (new_user_id db) name hashed])%list.
Proof.
  destruct req as [body salt | body | body | query | id | id bidder bid]; simpl.
  - unfold signup.
    destruct (negb (truthy (req_username body)) || negb (truthy (req_password body)));
      [by left |].
    destruct (User_findOne (req_username body) db) as [[u |] |]; try by left.
    destruct (bcrypt_hash (req_password body) salt) as [hashed |]; [| by left].
    unfold create_user.
    destruct (castString (req_username body)) as [name |]; [| by left].
    destruct (String.eqb name "" || String.eqb hashed ""); [by left |].
    destruct (existsb _ (users db)) eqn:Htaken; [by left |].
    right. exists name, hashed. split; [| reflexivity].
    intros u Hin.
    apply find_existsb_false in Htaken.
    pose proof (proj1 (find_none_forall _ _) Htaken u Hin) as Hfalse.
    simpl in Hfalse. by apply String.eqb_neq in Hfalse.
  - left. by rewrite signin_db.
  - left. destruct (create_auction_effect body now db) as [-> | (item & _ & ->)];
      reflexivity.
  - left. reflexivity.
  - left. destruct (view_auction_effect id now db) as [-> | (item & _ & _ & _ & ->)];
      reflexivity.
  - left. destruct (place_bid_effect id bidder bid now db)
      as [[-> _] | (item & _ & _ & [(_ & ->) | (_ & _ & ->)])]; reflexivity.
Qed.

(** X6. Distinct usernames and distinct user ids are kept by every
    sequence of requests: no sign-up stores a second user with a name or an
    id that is taken. *)
Theorem usernames_stay_unique (reqs : list (Request * Z)) (db : Db) :
  NoDup (username <$> users db) -> NoDup (user_id <$> users db) ->
  NoDup (username <$> users (run reqs db))
  /\ NoDup (user_id <$> users (run reqs db)).
Proof.
  revert db. induction reqs as [| [req now] rest IH]; intros db Hnames Hids;
    [done |].
  simpl. apply IH.
  - destruct (handle_users req now db) as [-> | (name & hashed & Hfree & ->)];
      [done |].
    rewrite fmap_app. apply NoDup_app. split; [done |]. split; [| apply NoDup_singleton].
    intros x Hin Hx. simpl in Hx. apply list_elem_of_singleton in Hx as ->.
    apply list_elem_of_fmap in Hin as (u & Heq & Hu).
    apply list_elem_of_In in Hu. by destruct (Hfree u Hu).
  - destruct (handle_users req now db) as [-> | (name & hashed & Hfree & ->)];
      [done |].
    rewrite fmap_app. apply NoDup_app. split; [done |]. split; [| apply NoDup_singleton].
    intros x Hin Hx. simpl in Hx. apply list_elem_of_singleton in Hx as ->.
    unfold new_user_id in Hin. by apply infinite_is_fresh in Hin.
Qed.

Lemma signup_finds_new_user (body : Credentials) (salt : string) (db : Db) :
  fst (signup body salt db) = Res 201 (PMessage "User registered successfully") ->
  exists (name hashed : string),
    castString (req_username body) = Some name
    /\ bcrypt_hash (req_password body) salt = Some hashed
    /\ truthy (req_username body) = true
    /\ User_findOne (req_username body) (snd (signup body salt db))
       = Some (Some (mkUser (new_user_id db) name hashed)).
Proof.
  intros Hok.
  destruct (signup_registered body salt db Hok)
    as (name & hashed & Hn & _ & Hcast & _ & Hfind & Hhash & _ & ->).
  exists name, hashed. split; [done |]. split; [done |]. split; [done |].
  unfold User_findOne. rewrite Hcast. simpl.
  rewrite (find_app_new _ _ (mkUser (new_user_id db) name hashed) Hfind)
    by (simpl; apply String.eqb_refl).
  destruct (req_username body); try discriminate Hn; reflexivity.
Qed.

(** X7. After a sign-up that answered 201, a second sign-up with the same
    username, whatever its non-empty password and salt, answers the
    Conflict and stores nothing. *)
Theorem second_signup_conflicts (body : Credentials) (salt salt' : string)
    (password' : JsValue) (db : Db) :
  fst (signup body salt db) = Res 201 (PMessage "User registered successfully") ->
  truthy password' = true ->
  signup (mkCredentials (req_username body) password') salt'
    (snd (signup body salt db))
  = (Conflict, snd (signup body salt db)).
Proof.
  intros Hok Hpass.
  destruct (signup_finds_new_user body salt db Hok)
    as (name & hashed & _ & _ & Hn & Hfound).
  unfold signup at 1. simpl. by rewrite Hn, Hpass, Hfound.
Qed.

End AccountProperties.

Section SessionProperties.
Context `{Library}.

(** X8. After a sign-up that answered 201, a sign-in with the same
    credentials succeeds for the new user, provided bcrypt verifies a
    password against the hash it made of it. *)
Theorem signin_after_signup (body : Credentials) (salt : string) (now : Z) (db : Db) :
  fst (signup body salt db) = Res 201 (PMessage "User registered successfully") ->
  (forall hashed : string,
     bcrypt_hash (req_password body) salt = Some hashed ->
     bcrypt_compare (req_password body) hashed = Some true) ->
  exists name : string,
    castString (req_username body) = Some name
    /\ signin body now (snd (signup body salt db))
       = (Res 200 (PSignin "Signin successful"
                     (jwt_sign (new_user_id db) name now) (new_user_id db) name),
          snd (signup body salt db)).
Proof.
  intros Hok Hbcrypt.
  destruct (signup_finds_new_user body salt db Hok)
    as (name & hashed & Hcast & Hhash & _ & Hfound).
  exists name. split; [done |].
  unfold signin. rewrite Hfound. simpl. by rewrite (Hbcrypt hashed Hhash).
Qed.

(** X9. A sign-in never writes, and it answers 200 only with a token
    signed for a stored user against whose stored password bcrypt verified
    the password sent. *)
Theorem signin_issues_tokens_to_verified_users (body : Credentials) (now : Z)
    (db : Db) :
  snd (signin body now db) = db
  /\ (status (fst (signin body now db)) = 200%nat ->
      exists user : User,
        In user (users db)
        /\ bcrypt_compare (req_password body) (password user) = Some true
        /\ fst (signin body now db)
           = Res 200 (PSignin "Signin successful"
                        (jwt_sign (user_id user) (username user) now)
                        (user_id user) (username user))).
Proof.
  split; [apply signin_db |].
  unfold signin.
  destruct (User_findOne (req_username body) db) as [[user |] |] eqn:Hfound;
    try discriminate.
  destruct (bcrypt_compare (req_password body) (password user)) as [[|] |] eqn:Hcmp;
    try discriminate.
  intros _. exists user. split; [| by split].
  unfold User_findOne in Hfound.
  destruct (req_username body); try discriminate Hfound;
    (destruct (castString _); [| discriminate Hfound];
     injection Hfound as Hfind; by apply List.find_some in Hfind as [Hin _]).
Qed.

(** One request leaves a stored item as it is, or marks it closed, or
    records a higher bid on it while it is open. *)
Lemma handle_item_cases (req : Request) (now : Z) (db : Db) (id : positive)
    (item : AuctionItem) :
  findById id db = Some item ->
  findById id (snd (handle req now db)) = Some item
  \/ (isClosed item = false
      /\ findById id (snd (handle req now db)) = Some (set_isClosed item))
  \/ (isClosed item = false
      /\ exists (bidder : string) (bid : Z),
           currentBid item < bid
           /\ findById id (snd (handle req now db)) = Some (set_bid bid bidder item)).
Proof.
  intros Hfind.
  destruct req as [body salt | body | body | query | id' | id' bidder bid]; simpl.
  - left. unfold findById. by rewrite signup_auctions.
  - left. by rewrite signin_db.
  - left. destruct (create_auction_effect body now db) as [-> | (newItem & _ & ->)];
      [done |].
    simpl. rewrite findById_save_ne; [done |]. by apply (new_auction_id_fresh id item).
  - by left.
  - destruct (view_auction_effect id' now db) as [-> | (item0 & Hf0 & Hc0 & _ & ->)];
      [by left |].
    simpl. destruct (decide (id' = id)) as [-> | Hne].
    + assert (item0 = item) as -> by congruence.
      right. left. by rewrite findById_save_eq.
    + left. by rewrite findById_save_ne.
  - destruct (place_bid_effect id' bidder bid now db)
      as [[-> _] | (item0 & Hf0 & Hc0 & [(_ & ->) | (_ & Hhigh & ->)])];
      [by left | |]; simpl.
    + destruct (decide (id' = id)) as [-> | Hne].
      * assert (item0 = item) as -> by congruence.
        right. left. by rewrite findById_save_eq.
      * left. by rewrite findById_save_ne.
    + destruct (decide (id' = id)) as [-> | Hne].
      * assert (item0 = item) as -> by congruence.
        right. right. split; [done |]. exists bidder, bid.
        by rewrite findById_save_eq.
      * left. by rewrite findById_save_ne.
Qed.

(** The history of a stored item along a sequence of requests whose bids
    carry numbers: it keeps its place and its identity, and its leader
    changes only with a rise of the bid. *)
Lemma run_item_history (reqs : list (Request * Z)) (db : Db) (id : positive)
    (item : AuctionItem) :
  findById id db = Some item ->
  exists item' : AuctionItem,
    findById id (run reqs db) = Some item'
    /\ (itemName item' = itemName item
        /\ description item' = description item
        /\ closingTime item' = closingTime item
        /\ startingBid item' = startingBid item
        /\ createdAt item' = createdAt item)
    /\ ((highestBidder item' = highestBidder item
         /\ currentBid item' = currentBid item)
        \/ currentBid item < currentBid item').
Proof.
  revert db item. induction reqs as [| [req now] rest IH]; intros db item Hfind.
  - exists item. auto 10.
  - simpl.
    destruct (handle_item_cases req now db id item Hfind)
      as [Hsame | [(_ & Hnext) | (_ & bidder & bid & Hhigh & Hnext)]].
    + by apply IH.
    + destruct (IH _ _ Hnext) as (item' & Hfind' & Hident & Hcase). by exists item'.
    + destruct (IH _ _ Hnext) as (item' & Hfind' & Hident & Hcase). exists item'.
      split; [done |]. split; [done |]. right. simpl in Hcase. lia.
Qed.

(** X10. No handler changes the name, the description, the closing time,
    the starting bid or the creation date of a stored item: they are the
    same after every sequence of requests. *)
Theorem item_identity_is_immutable (reqs : list (Request * Z)) (db : Db)
    (id : positive) (item : AuctionItem) :
  findById id db = Some item ->
  exists item' : AuctionItem,
    findById id (run reqs db) = Some item'
    /\ itemName item' = itemName item
    /\ description item' = description item
    /\ closingTime item' = closingTime item
    /\ startingBid item' = startingBid item
    /\ createdAt item' = createdAt item.
Proof.
  intros Hfind.
  destruct (run_item_history reqs db id item Hfind) as (item' & Hfind' & Hident & _).
  by exists item'.
Qed.

(** X13. Every request performs at most one save: it returns the
    database as it was, or one in which exactly one more save is counted;
    a sequence of requests performs at most as many saves as it has
    requests. *)
Theorem one_save_per_request (req : Request) (now : Z) (db : Db)
    (reqs : list (Request * Z)) :
  (snd (handle req now db) = db \/ saves (snd (handle req now db)) = S (saves db))
  /\ (saves db <= saves (run reqs db) <= saves db + length reqs)%nat.
Proof.
  assert (Hone : forall req now db,
            snd (handle req now db) = db
            \/ saves (snd (handle req now db)) = S (saves db)).
  { clear. intros req now db.
    destruct req as [body salt | body | body | query | id | id bidder bid]; simpl.
    - unfold signup.
      destruct (negb (truthy (req_username body)) || negb (truthy (req_password body)));
        [by left |].
      destruct (User_findOne (req_username body) db) as [[u |] |]; try by left.
      destruct (bcrypt_hash (req_password body) salt) as [hashed |]; [| by left].
      unfold create_user.
      destruct (castString (req_username body)) as [name |]; [| by left].
      destruct (String.eqb name "" || String.eqb hashed ""); [by left |].
      destruct (existsb _ (users db)); [by left | by right].
    - left. apply signin_db.
    - destruct (create_auction_effect body now db) as [-> | (item & _ & ->)];
        [by left | by right].
    - by left.
    - destruct (view_auction_effect id now db) as [-> | (item & _ & _ & _ & ->)];
        [by left | by right].
    - destruct (place_bid_effect id bidder bid now db)
        as [[-> _] | (item & _ & _ & [(_ & ->) | (_ & _ & ->)])];
        [by left | by right | by right]. }
  split; [apply Hone |].
  clear req now. revert db. induction reqs as [| [req now] rest IH]; intros db;
    simpl; [lia |].
  specialize (IH (snd (handle req now db))).
  destruct (Hone req now db) as [Heq | Heq].
  - rewrite Heq in IH |- *. lia.
  - rewrite Heq in IH. lia.
Qed.

End SessionProperties.

(** ** The auction collection *)

Section CollectionProperties.
Context `{Library}.

(** X14. Stored users are never removed or altered: after any sequence
    of requests the user collection is the former one, followed by the
    users signed up since. *)
Theorem users_are_only_appended (reqs : list (Request * Z)) (db : Db) :
  exists more : list User, users (run reqs db) = (users db ++ more)%list.
Proof.
  revert db. induction reqs as [| [req now] rest IH]; intros db; simpl.
  - exists []. by rewrite app_nil_r.
  - destruct (IH (snd (handle req now db))) as (more & ->).
    destruct (handle_users req now db) as [-> | (name & hashed & _ & ->)].
    + by exists more.
    + rewrite <- app_assoc. by eexists.
Qed.

(** X15. A bid or a view on one item leaves every other item, and the
    user collection, as they were. *)
Theorem bid_and_view_touch_one_item (id id' : positive) (bidder : string)
    (bid now : Z) (db : Db) :
  id ≠ id' ->
  findById id' (snd (place_bid id bidder bid now db)) = findById id' db
  /\ findById id' (snd (view_auction id now db)) = findById id' db
  /\ users (snd (place_bid id bidder bid now db)) = users db
  /\ users (snd (view_auction id now db)) = users db.
Proof.
  intros Hne.
  destruct (place_bid_effect id bidder bid now db)
    as [[-> _] | (item & _ & _ & [(_ & ->) | (_ & _ & ->)])];
    destruct (view_auction_effect id now db) as [-> | (item' & _ & _ & _ & ->)];
    simpl; rewrite ?findById_save_ne by done; done.
Qed.

(** X16. Viewing an item again, at the same instant or an earlier one,
    gives the same response and writes nothing more. *)
Theorem view_again_changes_nothing (id : positive) (now now' : Z) (db : Db) :
  now' <= now ->
  view_auction id now' (snd (view_auction id now db))
  = (fst (view_auction id now db), snd (view_auction id now db)).
Proof.
  intros Hle.
  destruct (view_auction_effect id now db) as [Hsame | (item & Hfind & Hc & Hlt & ->)].
  - rewrite Hsame.
    destruct (findById id db) as [item |] eqn:Hfind.
    + destruct (isClosed item) eqn:Hc.
      * rewrite !(view_auction_unchanged id item _ db Hfind) by auto. done.
      * destruct (Z_lt_le_dec (closingTime item) now) as [Hlt | Hge].
        -- rewrite (view_auction_expired id item now db Hfind Hc Hlt) in Hsame.
           by destruct (save_auction_changes id (set_isClosed item) db).
        -- rewrite !(view_auction_unchanged id item _ db Hfind) by (right; lia).
           done.
    + by rewrite !view_auction_missing.
  - simpl. apply view_auction_unchanged; [apply findById_save_eq | by left].
Qed.

(** X17. An item that [create_auction] has just stored reads back as it
    was created: a view at or before its closing time answers with that
    item, open, with its current bid equal to its starting bid and no
    bidder, and writes nothing. *)
Theorem created_auction_reads_back (body : AuctionBody) (now now' : Z) (db : Db)
    (id : positive) (item : AuctionItem) :
  fst (create_auction body now db)
  = Res 201 (PCreated "Auction item created" id item) ->
  now' <= closingTime item ->
  view_auction id now' (snd (create_auction body now db))
  = (Res 200 (PItem id item), snd (create_auction body now db))
  /\ currentBid item = startingBid item
  /\ isClosed item = false
  /\ highestBidder item = ""
  /\ createdAt item = now.
Proof.
  intros Hcreated Hle.
  destruct (create_auction_created _ _ _ _ _ _ Hcreated) as (Hnew & _ & _ & ->).
  destruct (new_AuctionItem_fields _ _ _ Hnew)
    as (_ & _ & _ & _ & Hbid & Hnone & Hopen & Hdate).
  split; [| done].
  apply view_auction_unchanged; [apply findById_save_eq | by right].
Qed.

(** X18. A creation that answers 201 adds exactly one item, under an id
    that was free; every item stored before, and every user, is as it
    was. *)
Theorem create_auction_adds_one_item (body : AuctionBody) (now : Z) (db : Db)
    (id : positive) (item : AuctionItem) :
  fst (create_auction body now db)
  = Res 201 (PCreated "Auction item created" id item) ->
  findById id db = None
  /\ (forall id' : positive,
        id' ≠ id ->
        findById id' (snd (create_auction body now db)) = findById id' db)
  /\ size (auctions (snd (create_auction body now db))) = S (size (auctions db))
  /\ users (snd (create_auction body now db)) = users db.
Proof.
  intros Hcreated.
  destruct (create_auction_created _ _ _ _ _ _ Hcreated) as (_ & _ & -> & ->).
  assert (Hfree : findById (new_auction_id db) db = None).
  { destruct (findById (new_auction_id db) db) as [old |] eqn:Hold; [| done].
    by destruct (new_auction_id_fresh _ _ _ Hold). }
  split; [done |]. split; [| split; [| done]].
  - intros id' Hne. by apply findById_save_ne.
  - simpl. by apply map_size_insert_None.
Qed.

(** X19. An accepted bid sets the bar: until the closing time any bid
    that is not above it is answered BidTooLow carrying it, and the
    first bid after the closing time closes the item with the accepted
    bidder as winner and the accepted amount kept. *)
Theorem accepted_bid_sets_the_bar (id : positive) (item : AuctionItem)
    (bidder : string) (bid now : Z) (db : Db) :
  findById id db = Some item -> isClosed item = false ->
  now <= closingTime item -> currentBid item < bid ->
  (forall (bidder' : string) (bid' now' : Z),
     now' <= closingTime item -> bid' <= bid ->
     place_bid id bidder' bid' now' (snd (place_bid id bidder bid now db))
     = (BidTooLow bid, snd (place_bid id bidder bid now db)))
  /\ (forall (bidder' : string) (bid' now' : Z),
        closingTime item < now' ->
        fst (place_bid id bidder' bid' now' (snd (place_bid id bidder bid now db)))
        = AuctionClosed "Auction closed" bidder
        /\ findById id
             (snd (place_bid id bidder' bid' now'
                     (snd (place_bid id bidder bid now db))))
           = Some (set_isClosed (set_bid bid bidder item))).
Proof.
  intros Hfind Hc Hle Hhigh.
  rewrite (place_bid_high id item bidder bid now db Hfind Hc Hle Hhigh). simpl.
  pose proof (findById_save_eq id (set_bid bid bidder item) db) as Hstored.
  split.
  - intros bidder' bid' now' Hle' Hlow.
    by rewrite (place_bid_low id _ bidder' bid' now' _ Hstored Hc Hle' Hlow).
  - intros bidder' bid' now' Hlt.
    rewrite (place_bid_expired id _ bidder' bid' now' _ Hstored Hc Hlt). simpl.
    split; [reflexivity | apply findById_save_eq].
Qed.

End CollectionProperties.

(** ** Listing *)

Lemma elem_of_List_filter {A : Type} (f : A -> bool) (l : list A) (x : A) :
  x ∈ List.filter f l <-> x ∈ l /\ f x = true.
Proof. rewrite !list_elem_of_In. apply List.filter_In. Qed.

Lemma NoDup_List_filter {A : Type} (f : A -> bool) (l : list A) :
  NoDup l -> NoDup (List.filter f l).
Proof. rewrite !NoDup_ListNoDup. apply List.NoDup_filter. Qed.

#[local] Instance newest_first_total : Total newest_first.
Proof. intros a b. unfold newest_first. lia. Qed.

#[local] Instance newest_first_transitive : Transitive newest_first.
Proof. intros a b c. unfold newest_first. lia. Qed.

(** X20. [GET /auctions] writes nothing and answers 200 with exactly the
    stored items that pass the status filter, each once, every item at
    least as recent as all the items listed after it. *)
Theorem list_auctions_lists_matching_items (query : option string) (now : Z)
    (db : Db) :
  snd (list_auctions query now db) = db
  /\ exists items : list (positive * AuctionItem),
       fst (list_auctions query now db) = Res 200 (PItems items)
       /\ (forall (id : positive) (item : AuctionItem),
             (id, item) ∈ items
             <-> findById id db = Some item /\ matches_status query now item = true)
       /\ NoDup items
       /\ StronglySorted newest_first items.
Proof.
  split; [reflexivity |]. unfold list_auctions. eexists. split; [reflexivity |].
  split; [| split].
  - intros id item. rewrite merge_sort_Permutation, elem_of_List_filter.
    by rewrite elem_of_map_to_list.
  - rewrite merge_sort_Permutation. apply NoDup_List_filter, NoDup_map_to_list.
  - apply StronglySorted_merge_sort; apply _.
Qed.

(** X21. The two status filters never list the same item, the filter
    [closed] lists exactly the items the bid route treats as closed, and
    the only items neither filter lists are the open items whose closing
    time is the instant of the request; any other status lists them all. *)
Theorem status_filters_split_the_items (now : Z) (item : AuctionItem)
    (other : string) :
  (matches_status (Some "active") now item = true ->
   matches_status (Some "closed") now item = false)
  /\ matches_status (Some "closed") now item = effectively_closed item now
  /\ (matches_status (Some "active") now item = false
      /\ matches_status (Some "closed") now item = false
      <-> isClosed item = false /\ closingTime item = now)
  /\ matches_status None now item = true
  /\ (other ≠ "active" -> other ≠ "closed" ->
      matches_status (Some other) now item = true).
Proof.
  unfold effectively_closed, expired. simpl.
  split; [| split; [reflexivity | split; [| split; [reflexivity |]]]].
  - intros [Hopen Hlater]%andb_true_iff.
    apply negb_true_iff in Hopen. rewrite Hopen. simpl.
    apply Z.ltb_lt in Hlater. apply Z.ltb_ge. lia.
  - destruct (isClosed item); simpl.
    + split; [intros [_ Hno]; discriminate Hno | intros [Hno _]; discriminate Hno].
    + rewrite !Z.ltb_ge. lia.
  - intros Hactive Hclosed.
    apply String.eqb_neq in Hactive. apply String.eqb_neq in Hclosed.
    by rewrite Hactive, Hclosed.
Qed.

(** X22. An item listed as [active] at an instant takes a higher bid at
    that instant; on an item listed as [closed] every bid, whatever its
    amount, is answered AuctionClosed. *)
Theorem listing_agrees_with_bidding (id : positive) (item : AuctionItem)
    (bidder : string) (bid now : Z) (db : Db) :
  findById id db = Some item ->
  (matches_status (Some "active") now item = true -> currentBid item < bid ->
   fst (place_bid id bidder bid now db) = BidAccepted id (set_bid bid bidder item) bid)
  /\ (matches_status (Some "closed") now item = true ->
      exists message : string,
        fst (place_bid id bidder bid now db)
        = AuctionClosed message (highestBidder item)).
Proof.
  intros Hfind. simpl. split.
  - intros [Hopen Hlater]%andb_true_iff Hhigh.
    apply negb_true_iff in Hopen. apply Z.ltb_lt in Hlater.
    rewrite (place_bid_high id item bidder bid now db Hfind Hopen); [done | lia | done].
  - intros [Hmarked | Hexpired]%orb_true_iff.
    + exists "Auction is closed". by rewrite (place_bid_marked id item).
    + destruct (isClosed item) eqn:Hc.
      * exists "Auction is closed". by rewrite (place_bid_marked id item).
      * exists "Auction closed". apply Z.ltb_lt in Hexpired.
        by rewrite (place_bid_expired id item).
Qed.

(** ** The older copies *)

(** X24. The guard [startingBid == null] of the older copies rejects
    nothing that the guard [!startingBid] of [backend/server.js] lets
    through, and the two differ exactly on a request whose other three
    fields are truthy and whose starting bid is 0, [false] or the empty
    text. *)
Theorem guards_differ_on_falsy_starting_bids (body : AuctionBody) :
  (Variant.missing_fields body = true -> missing_fields body = true)
  /\ (missing_fields body = true /\ Variant.missing_fields body = false
      <-> truthy (req_itemName body) = true
          /\ truthy (req_description body) = true
          /\ truthy (req_closingTime body) = true
          /\ (req_startingBid body = JNum 0
              \/ req_startingBid body = JBool false
              \/ req_startingBid body = JStr "")).
Proof.
  unfold Variant.missing_fields, missing_fields.
  destruct body as [name text bid closing]; simpl.
  destruct (truthy name), (truthy text), (truthy closing); simpl;
    rewrite ?orb_true_r; simpl;
    try (split; [done |]; split; [intros [_ Hno]; discriminate Hno
                                 | intros (Hn & Ht & Hc & _); discriminate]).
  rewrite !orb_false_r.
  assert (Hnever : forall v : JsValue,
            v ≠ JNum 0 -> v ≠ JBool false -> v ≠ JStr "" ->
            v = JNum 0 \/ v = JBool false \/ v = JStr "" -> False)
    by (intros v ? ? ? [? | [? | ?]]; done).
  destruct bid as [| | [|] | n | s]; simpl.
  - split; [done |]. split; [intros [_ Hno]; discriminate Hno |].
    intros (_ & _ & _ & Hbid).
    by destruct (Hnever JUndefined ltac:(done) ltac:(done) ltac:(done) Hbid).
  - split; [done |]. split; [intros [_ Hno]; discriminate Hno |].
    intros (_ & _ & _ & Hbid).
    by destruct (Hnever JNull ltac:(done) ltac:(done) ltac:(done) Hbid).
  - split; [done |]. split; [intros [Hyes _]; discriminate Hyes |].
    intros (_ & _ & _ & Hbid).
    by destruct (Hnever (JBool true) ltac:(done) ltac:(done) ltac:(done) Hbid).
  - split; [done |]. split; [intros _; repeat split; auto | done].
  - rewrite negb_involutive. destruct (Z.eqb_spec n 0) as [-> | Hne].
    + split; [done |]. split; [intros _; repeat split; auto | done].
    + split; [done |]. split; [intros [Hyes _]; discriminate Hyes |].
      intros (_ & _ & _ & Hbid).
      by destruct (Hnever (JNum n) ltac:(congruence) ltac:(done) ltac:(done) Hbid).
  - rewrite negb_involutive. destruct (String.eqb_spec s "") as [-> | Hne].
    + split; [done |]. split; [intros _; repeat split; auto | done].
    + split; [done |]. split; [intros [Hyes _]; discriminate Hyes |].
      intros (_ & _ & _ & Hbid).
      by destruct (Hnever (JStr s) ltac:(done) ltac:(done) ltac:(congruence) Hbid).
Qed.

(** ** The further properties on concrete requests *)

Lemma signup_registers_one_user_witness :
  fst (@signup example_library (mkCredentials (JStr "bob") (JStr "pw")) "salt"
         vase_db)
  = Res 201 (PMessage "User registered successfully").
Proof.
  apply (proj2 (@signup_registers_one_user example_library
                  (mkCredentials (JStr "bob") (JStr "pw")) "salt" vase_db)).
  exists "bob", "pw$salt".
  split; [reflexivity |]. split; [reflexivity |]. split; [reflexivity |].
  split; [discriminate |]. split.
  - intros u [<- | []]. discriminate.
  - split; [reflexivity |]. split; [discriminate | reflexivity].
Defined.

Lemma usernames_stay_unique_witness :
  NoDup (username <$>
           users (@run example_library
                    [(Signup (mkCredentials (JStr "bob") (JStr "pw")) "salt", 1);
                     (Signup (mkCredentials (JStr "bob") (JStr "other")) "pepper", 2)]
                    vase_db)).
Proof.
  apply (@usernames_stay_unique example_library
           [(Signup (mkCredentials (JStr "bob") (JStr "pw")) "salt", 1);
            (Signup (mkCredentials (JStr "bob") (JStr "other")) "pepper", 2)]
           vase_db).
  - apply (NoDup_singleton "alice").
  - apply (NoDup_singleton 1%positive).
Defined.

Lemma second_signup_conflicts_witness :
  @signup example_library (mkCredentials (JStr "bob") (JStr "other")) "pepper"
    (snd (@signup example_library (mkCredentials (JStr "bob") (JStr "pw")) "salt"
            vase_db))
  = (Conflict,
     snd (@signup example_library (mkCredentials (JStr "bob") (JStr "pw")) "salt"
            vase_db)).
Proof.
  apply (@second_signup_conflicts example_library
           (mkCredentials (JStr "bob") (JStr "pw")) "salt" "pepper" (JStr "other")
           vase_db); reflexivity.
Defined.

Lemma signin_after_signup_witness :
  exists name : string,
    @castString example_library (JStr "bob") = Some name
    /\ @signin example_library (mkCredentials (JStr "bob") (JStr "pw")) 5
         (snd (@signup example_library (mkCredentials (JStr "bob") (JStr "pw")) "salt"
                 vase_db))
       = (Res 200 (PSignin "Signin successful"
                     (@jwt_sign example_library (new_user_id vase_db) name 5)
                     (new_user_id vase_db) name),
          snd (@signup example_library (mkCredentials (JStr "bob") (JStr "pw")) "salt"
                 vase_db)).
Proof.
  apply (@signin_after_signup example_library
           (mkCredentials (JStr "bob") (JStr "pw")) "salt" 5 vase_db).
  - reflexivity.
  - intros hashed Hhash. injection Hhash as <-. reflexivity.
Defined.

Lemma signin_issues_tokens_to_verified_users_witness :
  exists user : User,
    In user (users vase_db)
    /\ @bcrypt_compare example_library (JStr "secret") (password user) = Some true
    /\ fst (@signin example_library (mkCredentials (JStr "alice") (JStr "secret")) 5
              vase_db)
       = Res 200 (PSignin "Signin successful"
                    (@jwt_sign example_library (user_id user) (username user) 5)
                    (user_id user) (username user)).
Proof.
  apply (@signin_issues_tokens_to_verified_users example_library
           (mkCredentials (JStr "alice") (JStr "secret")) 5 vase_db).
  reflexivity.
Defined.

Lemma item_identity_is_immutable_witness :
  exists item' : AuctionItem,
    findById 1
      (@run example_library [(PlaceBid 1 "bob" 150, 10); (ViewAuction 1, 2000)] vase_db)
    = Some item'
    /\ itemName item' = itemName vase
    /\ description item' = description vase
    /\ closingTime item' = closingTime vase
    /\ startingBid item' = startingBid vase
    /\ createdAt item' = createdAt vase.
Proof.
  apply (@item_identity_is_immutable example_library
           [(PlaceBid 1 "bob" 150, 10); (ViewAuction 1, 2000)] vase_db 1 vase).
  reflexivity.
Defined.

Lemma bid_and_view_touch_one_item_witness :
  findById 1 (snd (place_bid 2 "bob" 150 10 vase_db)) = findById 1 vase_db.
Proof.
  apply (bid_and_view_touch_one_item 2 1 "bob" 150 10 vase_db). discriminate.
Defined.

Lemma view_again_changes_nothing_witness :
  view_auction 1 2000 (snd (view_auction 1 2000 vase_db))
  = (fst (view_auction 1 2000 vase_db), snd (view_auction 1 2000 vase_db)).
Proof.
  apply (view_again_changes_nothing 1 2000 2000 vase_db). lia.
Defined.

Lemma created_auction_reads_back_witness :
  view_auction 1 500 (snd (@create_auction example_library vase_body 0 empty_db))
  = (Res 200 (PItem 1 vase),
     snd (@create_auction example_library vase_body 0 empty_db)).
Proof.
  apply (@created_auction_reads_back example_library vase_body 0 500 empty_db 1 vase);
    [reflexivity | unfold vase; simpl; lia].
Defined.

Lemma create_auction_adds_one_item_witness :
  size (auctions (snd (@create_auction example_library vase_body 5 vase_db)))
  = S (size (auctions vase_db)).
Proof.
  apply (@create_auction_adds_one_item example_library vase_body 5 vase_db 2
           (mkAuctionItem "Vase" "Blue vase" 100 "" 1000 false 100 5)).
  reflexivity.
Defined.

Lemma accepted_bid_sets_the_bar_witness :
  place_bid 1 "carol" 120 20 (snd (place_bid 1 "bob" 150 10 vase_db))
  = (BidTooLow 150, snd (place_bid 1 "bob" 150 10 vase_db)).
Proof.
  apply (accepted_bid_sets_the_bar 1 vase "bob" 150 10 vase_db);
    try reflexivity; unfold vase; simpl; lia.
Defined.

Lemma status_filters_split_the_items_witness :
  matches_status (Some "closed") 500 vase = false
  /\ matches_status (Some "sold") 500 vase = true.
Proof.
  pose proof (status_filters_split_the_items 500 vase "sold")
    as (Hactive & _ & _ & _ & Hother).
  split; [apply Hactive; reflexivity | apply Hother; discriminate].
Defined.

Lemma listing_agrees_with_bidding_witness :
  fst (place_bid 1 "bob" 150 500 vase_db) = BidAccepted 1 (set_bid 150 "bob" vase) 150.
Proof.
  apply (listing_agrees_with_bidding 1 vase "bob" 150 500 vase_db);
    [reflexivity | reflexivity | unfold vase; simpl; lia].
Defined.

Lemma guards_differ_on_falsy_starting_bids_witness :
  missing_fields (mkAuctionBody JUndefined (JStr "Blue vase") (JNum 100) (JNum 1000))
  = true.
Proof.
  apply (proj1 (guards_differ_on_falsy_starting_bids
                  (mkAuctionBody JUndefined (JStr "Blue vase") (JNum 100) (JNum 1000)))).
  reflexivity.
Defined.

(** ** The bid route on any body *)

Section RawBids.
Context `{Coercion}.


(** X26. What the route of [backend/server.js] does, on an item stored
    open and not expired, with a bid that is not a number.  A request
    without [bid] is answered 200 [Bid successful]: the comparison with
    [undefined] is false, so the route unsets [currentBid] and makes the
    bidder the highest bidder; from then on a bid of any number is
    accepted.  A text that reads as no number passes the comparison too,
    but fails the cast: the answer is 500 and nothing is stored.  A [null]
    compares as 0 and is answered as too low when the current bid is not
    negative. *)
Theorem bids_that_are_not_numbers (id : positive) (item : Raw.Item)
    (bidder : string) (now : Z) (items : gmap positive Raw.Item) :
  items !! id = Some item -> Raw.isClosed item = false ->
  now <= Raw.closingTime item ->
  Raw.place_bid id bidder JUndefined now items
  = (Raw.Res 200
       (Raw.PBid "Bid successful" id
          (Raw.mkItem (Raw.itemName item) (Raw.description item) Unset bidder
             (Raw.closingTime item) false (Raw.startingBid item)
             (Raw.createdAt item))
          JUndefined),
     <[id := Raw.mkItem (Raw.itemName item) (Raw.description item) Unset bidder
               (Raw.closingTime item) false (Raw.startingBid item)
               (Raw.createdAt item)]> items)
  /\ (forall (next : string) (n now' : Z),
        now' <= Raw.closingTime item ->
        snd (Raw.place_bid id next (JNum n) now'
               (snd (Raw.place_bid id bidder JUndefined now items)))
        !! id
        = Some (Raw.mkItem (Raw.itemName item) (Raw.description item) (Stored n) next
                  (Raw.closingTime item) false (Raw.startingBid item)
                  (Raw.createdAt item)))
  /\ (forall text : string,
        text ≠ "" -> Number_of_text text = None ->
        Raw.place_bid id bidder (JStr text) now items
        = (Raw.Res 500 (Raw.PMessage "Internal Server Error"), items))
  /\ (forall current : Z,
        Raw.currentBid item = Stored current -> 0 <= current ->
        Raw.place_bid id bidder JNull now items
        = (Raw.Res 400
             (Raw.PTooLow "Bid must be higher than current bid" (Stored current)),
           items)).
Proof.
  intros Hfind Hc Hle.
  apply Z.ltb_ge in Hle as Hnot.
  assert (Hbidless : Raw.place_bid id bidder JUndefined now items
            = (Raw.Res 200
                 (Raw.PBid "Bid successful" id
                    (Raw.mkItem (Raw.itemName item) (Raw.description item) Unset bidder
                       (Raw.closingTime item) false (Raw.startingBid item)
                       (Raw.createdAt item))
                    JUndefined),
               <[id := Raw.mkItem (Raw.itemName item) (Raw.description item) Unset
                         bidder (Raw.closingTime item) false (Raw.startingBid item)
                         (Raw.createdAt item)]> items)).
  { unfold Raw.place_bid. rewrite Hfind, Hc, Hnot. simpl. reflexivity. }
  split; [exact Hbidless |]. split; [| split].
  - intros next n now' Hle'. rewrite Hbidless. simpl.
    unfold Raw.place_bid. rewrite lookup_insert_eq. simpl.
    apply Z.ltb_ge in Hle'. rewrite Hle'. simpl.
    by rewrite lookup_insert_eq.
  - intros text Hne Hnan. unfold Raw.place_bid. rewrite Hfind, Hc, Hnot. simpl.
    rewrite Hnan. simpl. apply String.eqb_neq in Hne. by rewrite Hne.
  - intros current Hcur Hpos. unfold Raw.place_bid. rewrite Hfind, Hc, Hnot, Hcur.
    simpl. apply Z.leb_le in Hpos. by rewrite Hpos.
Qed.

(** X23. On a bid that is a number the bid route of the older copy makes
    the same changes to the items as the one of [backend/server.js], with
    the same status except for the 200 instead of 400 when it closes an
    expired item.  On a request without [bid], for an item stored open and
    not expired, the two part: the schema of the older copy requires
    [currentBid], so its [save()] fails, it answers 500 and changes
    nothing, while [backend/server.js] answers 200 and unsets
    [currentBid]. *)
Theorem older_bid_route_requires_a_number (id : positive) (bidder : string)
    (now : Z) (db : Db) :
  (forall n : Z,
     snd (Legacy.place_bid id bidder (JNum n) now (legacy_item <$> auctions db))
     = legacy_item <$> auctions (snd (place_bid id bidder n now db))
     /\ (Legacy.status
           (fst (Legacy.place_bid id bidder (JNum n) now
                   (legacy_item <$> auctions db)))
         = status (fst (place_bid id bidder n now db))
         \/ (exists item : AuctionItem,
               findById id db = Some item /\ isClosed item = false
               /\ closingTime item < now
               /\ Legacy.status
                    (fst (Legacy.place_bid id bidder (JNum n) now
                            (legacy_item <$> auctions db))) = 200%nat
               /\ status (fst (place_bid id bidder n now db)) = 400%nat)))
  /\ (forall item : AuctionItem,
        findById id db = Some item -> isClosed item = false ->
        now <= closingTime item ->
        Legacy.place_bid id bidder JUndefined now (legacy_item <$> auctions db)
        = (Legacy.Res 500 (Legacy.PMessage "Server error"),
           legacy_item <$> auctions db)
        /\ Raw.status
             (fst (Raw.place_bid id bidder JUndefined now (raw_item <$> auctions db)))
           = 200%nat
        /\ (Raw.currentBid
              <$> snd (Raw.place_bid id bidder JUndefined now
                         (raw_item <$> auctions db)) !! id)
           = Some Unset).
Proof.
  split.
  - intros n. unfold Legacy.place_bid, place_bid, findById. rewrite lookup_fmap.
    destruct (auctions db !! id) as [item |] eqn:Hfind; simpl; [| by split; [| left]].
    destruct (isClosed item) eqn:Hc; [by split; [| left] |].
    destruct (closingTime item <? now) eqn:Hlt; simpl.
    + split; [by rewrite fmap_insert |].
      right. exists item. apply Z.ltb_lt in Hlt. auto.
    + destruct (n <=? currentBid item); simpl; [by split; [| left] |].
      split; [| by left]. rewrite fmap_insert. unfold legacy_item, set_bid. simpl.
      by rewrite Hc.
  - intros item Hfind Hc Hle. unfold findById in Hfind.
    apply Z.ltb_ge in Hle.
    unfold Legacy.place_bid, Raw.place_bid. rewrite !lookup_fmap, Hfind. simpl.
    rewrite Hc, Hle. simpl. by rewrite lookup_insert_eq.
Qed.

End RawBids.

(** C5. The claim is not what [backend/server.js] does.  The vase is
    created with a starting bid of 100.  A bid request without [bid] is
    then answered 200 and unsets [currentBid], and the next bid, of 50, is
    accepted: the stored item ends with a current bid of 50 under its
    starting bid of 100. *)
Theorem bidless_request_breaks_the_bid_floor :
  fst (@create_auction example_library vase_body 0 empty_db)
  = Res 201 (PCreated "Auction item created" 1 vase)
  /\ raw_item <$> auctions (snd (@create_auction example_library vase_body 0 empty_db))
     = {[ 1%positive := raw_item vase ]}
  /\ (forall C : Coercion,
        @Raw.place_bid C 1 "bob" JUndefined 10 {[ 1%positive := raw_item vase ]}
        = (Raw.Res 200
             (Raw.PBid "Bid successful" 1
                (Raw.mkItem "Vase" "Blue vase" Unset "bob" 1000 false 100 0)
                JUndefined),
           {[ 1%positive := Raw.mkItem "Vase" "Blue vase" Unset "bob" 1000 false 100 0 ]})
        /\ @Raw.place_bid C 1 "carol" (JNum 50) 20
             {[ 1%positive := Raw.mkItem "Vase" "Blue vase" Unset "bob" 1000 false 100 0 ]}
           = (Raw.Res 200
                (Raw.PBid "Bid successful" 1
                   (Raw.mkItem "Vase" "Blue vase" (Stored 50) "carol" 1000 false 100 0)
                   (JNum 50)),
              {[ 1%positive :=
                   Raw.mkItem "Vase" "Blue vase" (Stored 50) "carol" 1000 false 100 0 ]}))
  /\ Raw.currentBid (Raw.mkItem "Vase" "Blue vase" (Stored 50) "carol" 1000 false 100 0)
     = Stored 50
  /\ Raw.startingBid (Raw.mkItem "Vase" "Blue vase" (Stored 50) "carol" 1000 false 100 0)
     = 100
  /\ 50 < 100.
Proof.
  split; [reflexivity |]. split; [reflexivity |].
  split; [intros C; split; reflexivity |].
  split; [reflexivity |]. split; [reflexivity | lia].
Qed.

Lemma bids_that_are_not_numbers_witness :
  Raw.status
    (fst (@Raw.place_bid example_coercion 1 "bob" JUndefined 10
            (raw_item <$> auctions vase_db)))
  = 200%nat.
Proof.
  pose proof (@bids_that_are_not_numbers example_coercion 1 (raw_item vase) "bob" 10
                (raw_item <$> auctions vase_db) eq_refl eq_refl) as Hbidless.
  destruct Hbidless as [Hbidless _]; [unfold vase; simpl; lia |].
  by rewrite Hbidless.
Defined.

Lemma older_bid_route_requires_a_number_witness :
  @Legacy.place_bid example_coercion 1 "bob" JUndefined 10
    (legacy_item <$> auctions vase_db)
  = (Legacy.Res 500 (Legacy.PMessage "Server error"), legacy_item <$> auctions vase_db).
Proof.
  apply (@older_bid_route_requires_a_number example_coercion 1 "bob" 10 vase_db)
    with (item := vase); [reflexivity | reflexivity | unfold vase; simpl; lia].
Defined.
